(** * BRO-HDF5 table codec ([bronhdf5.py]): model and properties

    A shallow embedding of the reader and writer for BRO-HDF5 files.
    Python exceptions are values of an error monad, h5py groups and
    datasets are a tree that the writer updates functionally, and pandas
    tables are a nested inductive type.

    The libraries under the codec are modelled as far as the codec uses
    them (h5py 3, numpy 1.26, pandas 1).  A group keeps its children by
    name, refuses a second child of a name and lists them in name
    order.  A dataset keeps the array it is given; h5py refuses an
    object array unless its elements are all Python byte strings or all
    Python text strings, and it hands stored text back as byte strings.
    Byte strings and text are strings of bytes (text is its UTF-8
    encoding); column labels are byte strings and row labels are
    integers.  A pandas column is its name, its dtype, its values and
    its row labels; the elements a column can hold are Python and numpy
    scalars, [None] and tables. *)

From Stdlib Require Import ZArith String Ascii List Sorting.Sorted Sorting.Permutation.
From Stdlib Require Import Floats.PrimFloat Floats.FloatOps.
From stdpp Require Import base option list strings gmap pretty.

Set Warnings "-register-all".
Local Open Scope string_scope.
Local Open Scope list_scope.

(** ** numpy dtypes and h5py attribute values *)

(** The numpy dtypes the model knows.  [bytes_ n] is the dtype of byte
    strings of width [n] ([S<n>]), [bytes_ 0] being the flexible dtype
    [np.dtype(bytes)]; [str_] is [np.dtype(str)]. *)
Inductive dtype : Type :=
  | int32 | int64 | uint8 | float32 | float64 | bool_ | object_
  | bytes_ (itemsize : nat) | str_.

#[global] Instance dtype_eq_dec : EqDecision dtype.
Proof. solve_decision. Defined.

Definition dtype_code (d : dtype) : nat :=
  match d with
  | int32 => 0 | int64 => 1 | uint8 => 2 | float32 => 3 | float64 => 4
  | bool_ => 5 | object_ => 6 | str_ => 7 | bytes_ n => 8 + n
  end.

Definition dtype_of_code (c : nat) : option dtype :=
  match c with
  | 0 => Some int32 | 1 => Some int64 | 2 => Some uint8 | 3 => Some float32
  | 4 => Some float64 | 5 => Some bool_ | 6 => Some object_ | 7 => Some str_
  | S (S (S (S (S (S (S (S n))))))) => Some (bytes_ n)
  end.

#[global] Instance dtype_countable : Countable dtype.
Proof.
  refine (inj_countable dtype_code dtype_of_code _).
  intros []; reflexivity.
Defined.

(** [dtype.name]: a byte-string dtype of width [n] is named by its
    width in bits, the flexible one is ["bytes"]. *)
Definition dtype_name (d : dtype) : string :=
  match d with
  | int32 => "int32" | int64 => "int64" | uint8 => "uint8"
  | float32 => "float32" | float64 => "float64" | bool_ => "bool"
  | object_ => "object" | str_ => "str"
  | bytes_ 0 => "bytes"
  | bytes_ n => "bytes" +:+ pretty (8 * n)
  end.

(** The value of an HDF5 attribute as h5py hands it back: a byte string,
    a text string, or an integer array. *)
Inductive attr : Type :=
  | AttrBytes (s : string)
  | AttrStr (s : string)
  | AttrInts (l : list Z).

#[global] Instance attr_eq_dec : EqDecision attr.
Proof. solve_decision. Defined.

(** ** Python exceptions *)

(** The exception classes raised by the code under study or by the h5py
    and pandas calls it makes.  Messages are kept as the datum that they
    render (the key that was missing, the column that was not typable). *)
Inductive exn : Type :=
  | KeyError (key : string)
  | ValueError (message : string) (subject : string)
  | NotImplementedError (stored : attr)
  | AttributeError (attribute : string)
  | TypeError (message : string) (subject : string)
  | IndexError
  | Exception_ (message : string) (colnames : list string).

Inductive result (A : Type) : Type :=
  | Ok (a : A)
  | Raise (e : exn).
Arguments Ok {A} a.
Arguments Raise {A} e.

#[global] Instance result_ret : MRet result := fun A a => Ok a.
#[global] Instance result_bind : MBind result := fun A B f m =>
  match m with
  | Ok a => f a
  | Raise e => Raise e
  end.

(** A [for] loop whose body may raise and which threads the loop state. *)
Section Loops.
Context {S A : Type} (body : S → A → result S).

Fixpoint for_each (l : list A) (s : S) : result S :=
  match l with
  | [] => Ok s
  | x :: l' => s' ← body s x; for_each l' s'
  end.
End Loops.

(** A list comprehension whose element expression may raise. *)
Section Comprehension.
Context {A B : Type} (f : A → result B).

Fixpoint comprehension (l : list A) : result (list B) :=
  match l with
  | [] => Ok []
  | x :: l' => y ← f x; ys ← comprehension l'; Ok (y :: ys)
  end.
End Comprehension.

(** ** In-memory tables (pandas) *)

(** Primitive data: what an array element holds. *)
Inductive scalar : Type :=
  | SInt (z : Z)
  | SFloat (x : float)
  | SBool (b : bool)
  | SBytes (s : string)
  | SStr (s : string).

(** A pandas [Series]: a named column with its dtype, its values and
    the labels of its rows. *)
Record Series (V : Type) : Type := mkSeriesIndexed {
  name : string;
  dtype_ : dtype;
  values : list V;
  index : list Z
}.
Arguments mkSeriesIndexed {V} _ _ _ _.
Arguments name {V} _.
Arguments dtype_ {V} _.
Arguments values {V} _.
Arguments index {V} _.

(** [RangeIndex(n)]: the labels [0 .. n-1] that pandas gives rows when
    it is given none. *)
Definition RangeIndex (n : nat) : list Z := map Z.of_nat (seq 0 n).

(** A column on the default index. *)
Definition mkSeries {V} (name : string) (dt : dtype) (values : list V) : Series V :=
  mkSeriesIndexed name dt values (RangeIndex (length values)).
Arguments mkSeries {V} _ _ _ /.

(** A column element.  [VScalar s] is an element of a typed column,
    and in an object column the Python object of class [int], [float],
    [bool], [bytes] or [str]; [VNumpy s] is the numpy scalar object
    ([numpy.int64], [numpy.float64], [numpy.bool_], [numpy.bytes_],
    [numpy.str_]); [VNone] is [None]; [VTable] is a nested table.  A
    [DataFrame] is its columns, in order, and the two attributes the
    codec hangs on it: [None] is an attribute that was never set,
    [Some []] is the empty list, and [Some l] with entries is a numpy
    array of byte strings, as the decoder sets it. *)
Inductive value : Type :=
  | VScalar (s : scalar)
  | VNumpy (s : scalar)
  | VNone
  | VTable (df : DataFrame)
with DataFrame : Type :=
  | mkDataFrame (columns : list (Series value))
                (VariableDescriptions VariableUnits : option (list string)).

Coercion VScalar : scalar >-> value.

Definition columns (df : DataFrame) : list (Series value) :=
  match df with mkDataFrame c _ _ => c end.
Definition VariableDescriptions (df : DataFrame) : option (list string) :=
  match df with mkDataFrame _ vd _ => vd end.
Definition VariableUnits (df : DataFrame) : option (list string) :=
  match df with mkDataFrame _ _ vu => vu end.

(** [DataFrame(col)]: the one-column frame around a series. *)
Definition DataFrame_of_series (col : Series value) : DataFrame :=
  mkDataFrame [col] None None.

(** [DataFrame([])] with both attributes set to the empty list. *)
Definition empty_df : DataFrame := mkDataFrame [] (Some []) (Some []).

(** [col.values] as data: the elements of the array. *)
Definition as_scalar (z : value) : option scalar :=
  match z with
  | VScalar s | VNumpy s => Some s
  | VNone | VTable _ => None
  end.

(** Python's [sorted]: a stable sort, here by insertion from the right. *)
Section Sorted.
Context {A : Type} (le : A → A → bool).

Fixpoint insert_sorted (x : A) (l : list A) : list A :=
  match l with
  | [] => [x]
  | y :: l' => if le x y then x :: y :: l' else y :: insert_sorted x l'
  end.

Definition sorted (l : list A) : list A := foldr insert_sorted [] l.
End Sorted.

(** ** The container (h5py) *)

(** A node of the file: a dataset holding an array, or a group holding
    named children.  Both carry attributes.  The children of a group
    are listed here in the order in which they were created. *)
Inductive node : Type :=
  | Dataset (attrs : gmap string attr) (dt : dtype) (data : list scalar)
  | Group (attrs : gmap string attr) (children : list (string * node)).

Definition attrs_of (n : node) : gmap string attr :=
  match n with Dataset a _ _ | Group a _ => a end.

(** Association-list lookup with the continuation for the hit written
    outside the recursion, so that a function which recurses on the child
    it finds is structurally recursive on the tree. *)
Section Assoc.
Context {A B : Type} (k : string) (found : A → B) (missing : B).

Fixpoint assoc_with (l : list (string * A)) : B :=
  match l with
  | [] => missing
  | (k', a) :: l' => if String.eqb k k' then found a else assoc_with l'
  end.
End Assoc.

Definition assoc {A} (k : string) (l : list (string * A)) : option A :=
  assoc_with k Some None l.

(** [name in group] *)
Definition has_child (k : string) (n : node) : bool :=
  match n with
  | Group _ ch => bool_decide (is_Some (assoc k ch))
  | Dataset _ _ _ => false
  end.

(** [group[k]]: the child, or [KeyError]; a dataset indexed by a name
    has no such field.  What is done with the child is a continuation,
    for the sake of structural recursion (see [assoc_with]). *)
Definition getitem_with {B} (n : node) (k : string) (cont : node → result B) : result B :=
  match n with
  | Group _ ch => assoc_with k cont (Raise (KeyError k)) ch
  | Dataset _ _ _ => Raise (ValueError "Field names only allowed for compound types" k)
  end.

Definition getitem (n : node) (k : string) : result node := getitem_with n k Ok.

(** An element as h5py reads it: stored text comes back as the byte
    string of its encoding. *)
Definition h5_read (x : scalar) : scalar :=
  match x with
  | SStr s => SBytes s
  | _ => x
  end.

(** [node[:]]: the whole array of a dataset; a group has no slices. *)
Definition read_all (n : node) : result (dtype * list scalar) :=
  match n with
  | Dataset _ dt d => Ok (dt, map h5_read d)
  | Group _ _ => Raise (TypeError "Accessing a group is done with bytes or str" "slice")
  end.

(** [group.keys()]: h5py lists the children of a group by name, in
    ascending order of their bytes. *)
Definition keys (n : node) : list string :=
  match n with
  | Group _ ch => sorted String.leb (map fst ch)
  | Dataset _ _ _ => []
  end.

(** [node.attrs.create(k, v)]: sets or replaces the attribute. *)
Definition attrs_create (k : string) (v : attr) (n : node) : node :=
  match n with
  | Dataset a dt d => Dataset (<[k:=v]> a) dt d
  | Group a ch => Group (<[k:=v]> a) ch
  end.

(** [node.attrs[k]] *)
Definition attrs_getitem (n : node) (k : string) : result attr :=
  match attrs_of n !! k with
  | Some v => Ok v
  | None => Raise (KeyError k)
  end.

(** Adding a child under a name: h5py refuses a name that is taken. *)
Definition create_child (k : string) (c : node) (n : node) : result node :=
  match n with
  | Group a ch =>
      if has_child k n then Raise (ValueError "name already exists" k)
      else Ok (Group a (ch ++ [(k, c)]))
  | Dataset _ _ _ => Raise (AttributeError "create")
  end.

Definition is_python_bytes (z : value) : bool :=
  match z with VScalar (SBytes _) => true | _ => false end.

Definition is_python_str (z : value) : bool :=
  match z with VScalar (SStr _) => true | _ => false end.

(** Whether h5py finds an HDF5 type for an array.  A typed array of
    numbers, booleans or byte strings has one.  For an object array
    h5py looks at the classes of the elements: when they are all
    [bytes] or all [str] (and there is an element) the array is stored
    as variable-length strings, else there is no type for it; numpy
    text arrays have none either. *)
Definition has_hdf5_type (dt : dtype) (data : list value) : bool :=
  match dt with
  | object_ =>
      match data with
      | [] => false
      | _ => forallb is_python_bytes data || forallb is_python_str data
      end
  | str_ => false
  | _ => true
  end.

(** [hdfgroup.create_dataset(k, data=...)]: the type is settled before
    the name is looked at. *)
Definition create_dataset (k : string) (dt : dtype) (data : list value)
    (hdfgroup : node) : result node :=
  if has_hdf5_type dt data then create_child k (Dataset ∅ dt (omap as_scalar data)) hdfgroup
  else Raise (TypeError "dtype has no native HDF5 equivalent" (dtype_name dt)).

Definition create_group (k : string) (hdfgroup : node) : result node :=
  create_child k (Group ∅ []) hdfgroup.

(** A handle returned by [create_dataset] or [create_group] denotes the
    child of that name; writing through the handle rewrites that child
    in place.  An exception in the body leaves the function, so the
    partially written parent is never observed through a result. *)
Section OnChild.
Context (k : string) (body : node → result node).

Fixpoint on_child_list (l : list (string * node)) : result (list (string * node)) :=
  match l with
  | [] => Raise (KeyError k)
  | (k', c) :: l' =>
      if String.eqb k k' then c' ← body c; Ok ((k', c') :: l')
      else l'' ← on_child_list l'; Ok ((k', c) :: l'')
  end.

Definition on_child (n : node) : result node :=
  match n with
  | Group a ch => ch' ← on_child_list ch; Ok (Group a ch')
  | Dataset _ _ _ => Raise (ValueError "Field names only allowed for compound types" k)
  end.
End OnChild.

(** ** Type Tagger: [infer_column_matlab_type] *)

(** The runtime class of an object, [type(z)]. *)
Inductive pytype : Type :=
  | py_int | py_float | py_bool | py_bytes | py_str | py_DataFrame
  | numpy_int64 | numpy_float64 | numpy_bool | numpy_bytes | numpy_str
  | py_NoneType | py_Series.

#[global] Instance pytype_eq_dec : EqDecision pytype.
Proof. solve_decision. Defined.

Definition pytype_code (t : pytype) : positive :=
  match t with
  | py_int => 1 | py_float => 2 | py_bool => 3 | py_bytes => 4 | py_str => 5
  | py_DataFrame => 6 | numpy_int64 => 7 | numpy_float64 => 8 | numpy_bool => 9
  | numpy_bytes => 10 | numpy_str => 11 | py_NoneType => 12 | py_Series => 13
  end%positive.

Definition pytype_of_code (p : positive) : option pytype :=
  match p with
  | 1 => Some py_int | 2 => Some py_float | 3 => Some py_bool
  | 4 => Some py_bytes | 5 => Some py_str | 6 => Some py_DataFrame
  | 7 => Some numpy_int64 | 8 => Some numpy_float64 | 9 => Some numpy_bool
  | 10 => Some numpy_bytes | 11 => Some numpy_str | 12 => Some py_NoneType
  | 13 => Some py_Series | _ => None
  end%positive.

#[global] Instance pytype_countable : Countable pytype.
Proof.
  refine (inj_countable pytype_code pytype_of_code _).
  intros []; reflexivity.
Defined.

Definition type_ (z : value) : pytype :=
  match z with
  | VScalar (SInt _) => py_int
  | VScalar (SFloat _) => py_float
  | VScalar (SBool _) => py_bool
  | VScalar (SBytes _) => py_bytes
  | VScalar (SStr _) => py_str
  | VNumpy (SInt _) => numpy_int64
  | VNumpy (SFloat _) => numpy_float64
  | VNumpy (SBool _) => numpy_bool
  | VNumpy (SBytes _) => numpy_bytes
  | VNumpy (SStr _) => numpy_str
  | VNone => py_NoneType
  | VTable _ => py_DataFrame
  end.

(** [np.dtype(t)] for a class [t]: a builtin scalar class and the numpy
    scalar class of the same kind have one dtype, and every class that
    numpy does not know is [object]. *)
Definition np_dtype (t : pytype) : dtype :=
  match t with
  | py_int | numpy_int64 => int64
  | py_float | numpy_float64 => float64
  | py_bool | numpy_bool => bool_
  | py_bytes | numpy_bytes => bytes_ 0
  | py_str | numpy_str => str_
  | py_DataFrame | py_NoneType | py_Series => object_
  end.

Definition isinstance_DataFrame (z : value) : bool :=
  match z with VTable _ => true | _ => false end.

(** The rows of a column that carry the label [l]. *)
Definition rows_labelled (l : Z) (col : Series value) : list value :=
  map snd (List.filter (λ iv : Z * value, Z.eqb iv.1 l) (zip (index col) (values col))).

(** What [col[0]] is: the row labelled [0], or a [Series] of the rows
    when several rows carry that label. *)
Inductive located : Type :=
  | Row (z : value)
  | Rows (zs : list value).

Definition type_located (r : located) : pytype :=
  match r with
  | Row z => type_ z
  | Rows _ => py_Series
  end.

(** [col[0]]: a lookup by label, [KeyError] when no row is labelled [0]. *)
Definition series_getitem0 (col : Series value) : result located :=
  match rows_labelled 0 col with
  | [] => Raise (KeyError "0")
  | [z] => Ok (Row z)
  | zs => Ok (Rows zs)
  end.

(** [set(np.dtype(type(z)) for z in col)] *)
Definition col_dtypes (col : Series value) : gset dtype :=
  list_to_set (map (λ z, np_dtype (type_ z)) (values col)).

Definition infer_column_matlab_type (col : Series value) : result string :=
  ml_type ←
    (if existsb isinstance_DataFrame (values col) then Ok "table"
     else if bool_decide (dtype_ col ≠ object_) then Ok (dtype_name (dtype_ col))
     else
       if bool_decide (size (col_dtypes col) = 1) then
         z ← series_getitem0 col; Ok (dtype_name (np_dtype (type_located z)))
       else Raise (ValueError "Unable to infer matlab_type of column" (name col)));
  Ok (if String.eqb ml_type "bytes" then "cellstr" else ml_type).

(** A column holds a nested table next to a value that is none. *)
Definition mixed (col : Series value) : Prop :=
  existsb isinstance_DataFrame (values col) = true ∧
  forallb isinstance_DataFrame (values col) = false.

(** The distinct runtime classes of the elements of a column. *)
Definition runtime_types (col : Series value) : gset pytype :=
  list_to_set (map type_ (values col)).

(** The tag that goes with a dtype: its name, the flexible byte-string
    dtype being ["cellstr"]. *)
Definition dtype_tag (d : dtype) : string :=
  if String.eqb (dtype_name d) "bytes" then "cellstr" else dtype_name d.


(** ** Table Encoder: [write_df], [write_df_column], [write_df_metadata] *)

(** The array h5py stores for [list(df.columns)], a Python list of byte
    strings: variable-length strings, which are read as an object array;
    the empty list is an empty [float64] array. *)
Definition asarray_bytes (l : list string) : dtype * list scalar :=
  (match l with [] => float64 | _ => object_ end, map SBytes l).

(** The width of the numpy array of the byte strings [l]. *)
Definition itemsize_of (l : list string) : nat :=
  foldr (λ s n, Nat.max (String.length s) n) 1 l.

(** The array stored for one of the two attributes: the attribute if
    it was set, else [np.array([], dtype=bytes)]. *)
Definition metadata_array (m : option (list string)) : dtype * list scalar :=
  match m with
  | Some [] => (float64, [])
  | Some l => (bytes_ (itemsize_of l), map SBytes l)
  | None => (bytes_ 1, [])
  end.

Definition write_df_metadata (hdfgroup : node) (df : DataFrame) : result node :=
  let hdfgroup := attrs_create "matlab_type" (AttrBytes "table") hdfgroup in
  let colnames := map name (columns df) in
  let tag := attrs_create "matlab_type" (AttrBytes "cellstr") in
  hdfgroup ← create_dataset "VariableNames" (asarray_bytes colnames).1
                            (map VScalar (asarray_bytes colnames).2) hdfgroup;
  hdfgroup ← on_child "VariableNames" (λ dataset, Ok (tag dataset)) hdfgroup;
  let vd := metadata_array (VariableDescriptions df) in
  hdfgroup ← create_dataset "VariableDescriptions" vd.1 (map VScalar vd.2) hdfgroup;
  hdfgroup ← on_child "VariableDescriptions" (λ dataset, Ok (tag dataset)) hdfgroup;
  let vu := metadata_array (VariableUnits df) in
  hdfgroup ← create_dataset "VariableUnits" vu.1 (map VScalar vu.2) hdfgroup;
  on_child "VariableUnits" (λ dataset, Ok (tag dataset)) hdfgroup.

Section WriteColumn.
(** The encoder is recursive through [write_df_column]; here the
    recursive call is a parameter, and an element that is not a table
    fails where [write_df_metadata] asks for its [columns]. *)
Context (write_df : node → DataFrame → result node).

Definition write_df_any (hdfgroup : node) (z : value) : result node :=
  match z with
  | VTable df => write_df hdfgroup df
  | _ => Raise (AttributeError "columns")
  end.

Definition write_element (st : nat * node) (z : value) : result (nat * node) :=
  let '(i, col_group) := st in
  col_group ← create_group ("Element" +:+ pretty i) col_group;
  col_group ← on_child ("Element" +:+ pretty i) (λ e, write_df_any e z) col_group;
  Ok (S i, col_group).

Definition write_df_column_with (hdfgroup : node) (col : Series value) : result node :=
  ml_type ← infer_column_matlab_type col;
  if String.eqb ml_type "table" then
    hdfgroup ← create_group (name col) hdfgroup;
    on_child (name col) (λ col_group,
      let col_group := attrs_create "matlab_type" (AttrBytes "table") col_group in
      st ← for_each write_element (values col) (1, col_group);
      write_df_metadata st.2 (DataFrame_of_series col)) hdfgroup
  else
    hdfgroup ← create_dataset (name col) (dtype_ col) (values col) hdfgroup;
    on_child (name col) (λ dataset,
      Ok (attrs_create "matlab_type" (AttrBytes ml_type) dataset)) hdfgroup.
End WriteColumn.

Fixpoint write_df (hdfgroup : node) (df : DataFrame) {struct df} : result node :=
  hdfgroup ← write_df_metadata hdfgroup df;
  for_each (write_df_column_with write_df) (columns df) hdfgroup.

Definition write_df_column : node → Series value → result node :=
  write_df_column_with write_df.

(** ** Builtins of Python and numpy that the reader calls *)

(** [float_repr x] is the text numpy gives a float under
    [astype(bytes)]; [int_ s] is Python's [int(s)] on a string, [None]
    standing for [ValueError]. *)
Class Builtins : Type := {
  float_repr : float → string;
  int_ : string → option Z
}.

(** ** Table Decoder: [parse_bronhdf] *)

Section Decoder.
Context {BI : Builtins}.

(** One element of [data.astype(bytes)]. *)
Definition astype_bytes (x : scalar) : string :=
  match x with
  | SBytes s => s
  | SStr s => s
  | SInt z => pretty z
  | SBool b => if b then "True" else "False"
  | SFloat x => float_repr x
  end.

(** [a == b"..."] for an element [a] of an array that h5py has read
    (stored text is read as its bytes). *)
Definition eq_bytes (a : scalar) (b : string) : bool :=
  match a with
  | SBytes s | SStr s => String.eqb s b
  | _ => false
  end.

(** The test that opens [parse_bronhdf]: the stored table was empty. *)
Definition is_empty_marker (colnames : list scalar) : bool :=
  match colnames with
  | [] => true
  | [c] => eq_bytes c "Var1"
  | _ => false
  end.

(** The name under which h5py looks up a key object. *)
Definition key_of (c : scalar) : result string :=
  match c with
  | SBytes s | SStr s => Ok s
  | _ => Raise (TypeError "Accessing a group is done with bytes or str" (astype_bytes c))
  end.

(** One round of the loop over [("VariableDescriptions", "VariableUnits")]. *)
Definition read_metadata (hdfgroup : node) (metaname : string) (ncols : nat)
    : result (list string) :=
  dataset ← getitem hdfgroup metaname;
  data ← read_all dataset;
  if bool_decide (0 < length data.2) then Ok (map astype_bytes data.2)
  else Ok (replicate ncols "").

(** The [for ... break ... else] loop that finds the row count. *)
Fixpoint find_nrows (hdfgroup : node) (all_colnames : list scalar)
    (colnames : list scalar) : result nat :=
  match colnames with
  | [] => Raise (Exception_ "Bad Bron datamodel" (map astype_bytes all_colnames))
  | colname :: rest =>
      k ← key_of colname;
      child ← getitem hdfgroup k;
      match child with
      | Dataset _ _ data => Ok (length data)
      | Group _ _ => find_nrows hdfgroup all_colnames rest
      end
  end.

(** [ml_type != b"table" and ml_type != "table"], and the truth value
    that [if] takes of it.  On a byte string or a text string both
    comparisons are booleans.  On an integer array each comparison is
    an array of [True], one per element: the truth value of an array
    of two or more elements is an error, that of an empty array is
    [False] (and [and] stops there), that of a one-element array is its
    element. *)
Definition not_table_tag (ml_type : attr) : result bool :=
  match ml_type with
  | AttrBytes _ | AttrStr _ =>
      Ok (bool_decide (ml_type ≠ AttrBytes "table") &&
          bool_decide (ml_type ≠ AttrStr "table"))
  | AttrInts [] => Ok false
  | AttrInts [_] => Ok true
  | AttrInts _ =>
      Raise (ValueError "The truth value of an array with more than one element is ambiguous"
                        "matlab_type")
  end.

(** The dtype pandas gives a column assigned from an array: pandas
    keeps the dtype of the array, but holds text arrays as objects. *)
Definition series_dtype (dt : dtype) : dtype :=
  match dt with
  | str_ => object_
  | _ => dt
  end.

(** The dtype of an empty column after pandas has filled it with NaN. *)
Definition promote_nan (dt : dtype) : dtype :=
  match dt with
  | int32 | int64 | uint8 | float64 => float64
  | float32 => float32
  | bool_ | object_ | bytes_ _ | str_ => object_
  end.

(** [df[colname] = values] for the labels of [VariableNames] in turn,
    which are taken to be distinct: while the index is empty a non-empty
    column sets it (columns put there before are filled with NaN up to
    its length); afterwards the lengths must agree. *)
Definition index_length (df : list (Series value)) : nat :=
  match df with
  | [] => 0
  | col :: _ => length (values col)
  end.

Definition setitem (df : list (Series value)) (col : Series value)
    : result (list (Series value)) :=
  let n := index_length df in
  let m := length (values col) in
  if bool_decide (n = 0 ∧ 0 < m) then
    Ok (map (λ c, mkSeries (name c) (promote_nan (dtype_ c))
                    (replicate m (VScalar (SFloat nan)))) df ++ [col])
  else if bool_decide (m = n) then Ok (df ++ [col])
  else Raise (ValueError "Length of values does not match length of index" (name col)).

Section ReadColumn.
(** The decoder is recursive through the nested columns; here the
    recursive call is a parameter. *)
Context (parse_bronhdf : node → result DataFrame).

(** The list comprehension over [range(1, nrows + 1)]. *)
Definition read_elements (col_group : node) (nrows : nat) : result (list DataFrame) :=
  comprehension
    (λ i_row, getitem_with col_group ("Element" +:+ pretty i_row) parse_bronhdf)
    (seq 1 nrows).

(** One round of the second loop over [colnames]: the column that
    is assigned to [df[colname]]. *)
Definition read_column_with (hdfgroup : node) (nrows : nat) (colname : scalar)
    : result (Series value) :=
  k ← key_of colname;
  getitem_with hdfgroup k (λ child,
    ml_type ← attrs_getitem child "matlab_type";
    other ← not_table_tag ml_type;
    if (other : bool) then
      data ← read_all child;
      Ok (mkSeries k (series_dtype data.1) (map VScalar data.2))
    else
      colcontents ← read_elements child nrows;
      Ok (mkSeries k object_ (map VTable colcontents))).
End ReadColumn.

Fixpoint parse_bronhdf (hdfgroup : node) {struct hdfgroup} : result DataFrame :=
  dataset ← getitem hdfgroup "VariableNames";
  colnames ← read_all dataset;
  let colnames := colnames.2 in
  if is_empty_marker colnames then Ok empty_df
  else
    vd ← read_metadata hdfgroup "VariableDescriptions" (length colnames);
    vu ← read_metadata hdfgroup "VariableUnits" (length colnames);
    nrows ← find_nrows hdfgroup colnames colnames;
    df ← for_each
           (λ df colname,
              col ← read_column_with parse_bronhdf hdfgroup nrows colname;
              setitem df col)
           colnames [];
    Ok (mkDataFrame df (Some vd) (Some vu)).

Definition read_column : node → nat → scalar → result (Series value) :=
  read_column_with parse_bronhdf.

(** The stored form of the column named by [colname] is a group. *)
Definition stored_as_group (hdfgroup : node) (colname : scalar) : Prop :=
  ∃ k a ch, key_of colname = Ok k ∧ getitem hdfgroup k = Ok (Group a ch).

(** The stored form of the column named by [colname] is a dataset of
    [n] values. *)
Definition stored_as_dataset (hdfgroup : node) (colname : scalar) (n : nat) : Prop :=
  ∃ k a dt data,
    key_of colname = Ok k ∧ getitem hdfgroup k = Ok (Dataset a dt data) ∧
    length data = n.
End Decoder.

(** ** Aggregate Codec: [GMW], [write_gmws_to_bron2], [read_bron2_to_gmws] *)

Definition BRON_VERSION : Z * Z := (2, 0)%Z.

Record GMW : Type := mkGMW {
  History : DataFrame;
  Tube : DataFrame;
  Well : DataFrame
}.

Definition FIELDS : list string := ["History"; "Tube"; "Well"].

(** [getattr(self, field_name)] for the names in [FIELDS]. *)
Definition GMW_getattr (self : GMW) (field_name : string) : result DataFrame :=
  if String.eqb field_name "History" then Ok (History self)
  else if String.eqb field_name "Tube" then Ok (Tube self)
  else if String.eqb field_name "Well" then Ok (Well self)
  else Raise (AttributeError field_name).

Definition GMW_write (self : GMW) (hdfgroup : node) : result node :=
  for_each
    (λ hdfgroup field_name,
       hdfgroup ← create_group field_name hdfgroup;
       on_child field_name
         (λ field_group, df ← GMW_getattr self field_name; write_df field_group df)
         hdfgroup)
    FIELDS hdfgroup.

(** A Python [dict] with string keys, in insertion order. *)
Fixpoint dict_setitem {V} (k : string) (v : V) (d : list (string * V)) : list (string * V) :=
  match d with
  | [] => [(k, v)]
  | (k', v') :: d' =>
      if String.eqb k k' then (k', v) :: d' else (k', v') :: dict_setitem k v d'
  end.

Definition write_gmws_to_bron2 (hdfgroup : node) (gmws : list (string * GMW)) : result node :=
  let hdfgroup :=
    attrs_create "BRON_VERSION" (AttrInts [BRON_VERSION.1; BRON_VERSION.2]) hdfgroup in
  for_each
    (λ hdfgroup '(group, gmw),
       hdfgroup ← create_group group hdfgroup;
       on_child group (λ g, GMW_write gmw g) hdfgroup)
    gmws hdfgroup.

(** What [attribute[0]] can be: a number, or a one-character text. *)
Inductive item : Type :=
  | ItemInt (z : Z)
  | ItemStr (s : string).

Definition attr_getitem0 (v : attr) : result item :=
  match v with
  | AttrInts (z :: _) => Ok (ItemInt z)
  | AttrBytes (String c _) => Ok (ItemInt (Z.of_nat (nat_of_ascii c)))
  | AttrStr (String c _) => Ok (ItemStr (String c ""))
  | AttrInts [] | AttrBytes "" | AttrStr "" => Raise IndexError
  end.

(** [x != n] for an integer [n] *)
Definition item_ne (x : item) (n : Z) : bool :=
  match x with
  | ItemInt z => negb (Z.eqb z n)
  | ItemStr _ => true
  end.

Definition _check_bron_version (hdfgroup : node) : result unit :=
  if negb (bool_decide (is_Some (attrs_of hdfgroup !! "BRON_VERSION"))) then
    Raise (KeyError "BRON_VERSION")
  else
    v ← attrs_getitem hdfgroup "BRON_VERSION";
    major ← attr_getitem0 v;
    if item_ne major BRON_VERSION.1 then Raise (NotImplementedError v)
    else Ok ().

Section Reader.
Context {BI : Builtins}.

(** [sorted(l, key=int)]: every key is computed first, and a string
    that [int] rejects aborts the call with [ValueError]. *)
Definition sorted_key_int (l : list string) : option (list string) :=
  keyed ← mapM (λ k, i ← int_ k; Some (i, k)) l;
  Some (map snd (sorted (λ a b, Z.leb a.1 b.1) keyed)).

(** The two assignments to [gkeys]. *)
Definition sorted_gkeys (hdfgroup : node) : list string :=
  let gkeys := sorted String.leb (keys hdfgroup) in
  match sorted_key_int (keys hdfgroup) with
  | Some gkeys' => gkeys'
  | None => gkeys
  end.

Definition read_gmw (group : node) : result GMW :=
  history ← getitem_with group "History" parse_bronhdf;
  tube ← getitem_with group "Tube" parse_bronhdf;
  well ← getitem_with group "Well" parse_bronhdf;
  Ok (mkGMW history tube well).

Definition read_bron2_to_gmws (hdfgroup : node) : result (list (string * GMW)) :=
  _ ← _check_bron_version hdfgroup;
  let gkeys := sorted_gkeys hdfgroup in
  for_each
    (λ gmws k, gmw ← getitem_with hdfgroup k read_gmw; Ok (dict_setitem k gmw gmws))
    gkeys [].

(** Ascending order of the integers that two keys denote. *)
Definition int_le (a b : string) : Prop :=
  match int_ a, int_ b with
  | Some x, Some y => (x ≤ y)%Z
  | _, _ => False
  end.

(** Ascending lexicographic order. *)
Definition lex_le (a b : string) : Prop := String.leb a b = true.
End Reader.

(** ** An instance of the builtins for running the model *)

(** [int] on ASCII text: surrounding whitespace, an optional sign, then
    decimal digits in which single underscores may separate digits. *)
Definition is_space (c : ascii) : bool :=
  let n := nat_of_ascii c in
  ((9 <=? n) && (n <=? 13) || (28 <=? n) && (n <=? 32))%nat.

Definition digit_of (c : ascii) : option Z :=
  let n := nat_of_ascii c in
  if ((48 <=? n) && (n <=? 57))%nat then Some (Z.of_nat (n - 48)) else None.

Fixpoint lstrip (s : string) : string :=
  match s with
  | String c s' => if is_space c then lstrip s' else s
  | "" => ""
  end.

Definition strip (s : string) : string :=
  String.rev (lstrip (String.rev (lstrip s))).

Fixpoint int_digits (acc : Z) (after_digit : bool) (s : string) : option Z :=
  match s with
  | "" => if after_digit then Some acc else None
  | String c s' =>
      match digit_of c with
      | Some d => int_digits (10 * acc + d)%Z true s'
      | None =>
          if Ascii.eqb c "_" && after_digit then int_digits acc false s' else None
      end
  end.

Definition int_ascii (s : string) : option Z :=
  match strip s with
  | String "-" s' => Z.opp <$> int_digits 0 false s'
  | String "+" s' => int_digits 0 false s'
  | s' => int_digits 0 false s'
  end.

(** Floats: zero, infinities and NaN as numpy prints them, a finite
    float by mantissa and binary exponent. *)
Definition float_text (x : float) : string :=
  match Prim2SF x with
  | SpecFloat.S754_zero s => if s then "-0.0" else "0.0"
  | SpecFloat.S754_infinity s => if s then "-inf" else "inf"
  | SpecFloat.S754_nan => "nan"
  | SpecFloat.S754_finite s m e =>
      (if s then "-" else "") +:+ pretty (Zpos m) +:+ "p" +:+ pretty e
  end.

Definition ascii_builtins : Builtins :=
  {| float_repr := float_text; int_ := int_ascii |}.

(** ** Well-formed tables, and the layout of a table in the file *)

(** A column without nested tables is homogeneous when its values are
    all of one runtime type; that needs a first value. *)
Definition homogeneous (vs : list value) : bool :=
  match vs with
  | [] => false
  | z :: vs' => forallb (λ z', bool_decide (type_ z' = type_ z)) vs'
  end.

Definition reserved_names : list string :=
  ["VariableNames"; "VariableDescriptions"; "VariableUnits"].

Definition nrows_of (cols : list (Series value)) : nat :=
  match cols with
  | [] => 0
  | col :: _ => length (values col)
  end.

(** A byte string that HDF5 stores whole: the NUL byte ends a string. *)
Fixpoint mentions (c : ascii) (s : string) : bool :=
  match s with
  | "" => false
  | String c' s' => Ascii.eqb c c' || mentions c s'
  end.

Definition text_ok (s : string) : bool := negb (mentions "000"%char s).

(** A name that denotes one child of a group: it is not empty, not
    the path of the group itself, and has no path separator. *)
Definition valid_name (s : string) : bool :=
  text_ok s && negb (String.eqb s "") && negb (String.eqb s ".") &&
  negb (mentions "/"%char s).

(** The elements that a column of a dtype holds, for the dtypes whose
    columns come back as they were written: integers within the width
    of an integer dtype, floats, booleans, byte strings within the
    width of a byte-string dtype, and Python byte strings in an object
    column. *)
Definition holds (dt : dtype) (z : value) : bool :=
  match dt, z with
  | int64, VScalar (SInt i) => bool_decide (- 2 ^ 63 ≤ i < 2 ^ 63)%Z
  | int32, VScalar (SInt i) => bool_decide (- 2 ^ 31 ≤ i < 2 ^ 31)%Z
  | uint8, VScalar (SInt i) => bool_decide (0 ≤ i < 2 ^ 8)%Z
  | float32, VScalar (SFloat _) | float64, VScalar (SFloat _) => true
  | bool_, VScalar (SBool _) => true
  | bytes_ n, VScalar (SBytes s) =>
      bool_decide (0 < n)%nat && bool_decide (String.length s ≤ n)%nat && text_ok s
  | object_, VScalar (SBytes s) => text_ok s
  | _, _ => false
  end.

Section WellFormed.
Context (wf_table : DataFrame → bool).

Definition wf_row (z : value) : bool :=
  match z with
  | VTable df => wf_table df
  | _ => false
  end.

(** A column of a well-formed table has the table's number of rows,
    the default row labels, and a name that is valid in the file and
    is none of the metadata datasets; it is a column of well-formed
    nested tables with dtype [object], or a column of the elements its
    dtype holds, with at least one row when that dtype is [object]; a
    column has neither the dtype of text nor the flexible byte-string
    dtype. *)
Definition wf_column (nrows : nat) (col : Series value) : bool :=
  bool_decide (length (values col) = nrows) &&
  bool_decide (name col ∉ reserved_names) &&
  valid_name (name col) &&
  bool_decide (index col = RangeIndex nrows) &&
  if existsb isinstance_DataFrame (values col) then
    bool_decide (dtype_ col = object_) && forallb wf_row (values col)
  else
    bool_decide (dtype_ col ≠ str_ ∧ dtype_ col ≠ bytes_ 0) &&
    forallb (holds (dtype_ col)) (values col) &&
    (bool_decide (dtype_ col ≠ object_) || bool_decide (values col ≠ [])).
End WellFormed.

(** The entries of an attribute that is set are stored whole. *)
Definition metadata_ok (m : option (list string)) : bool :=
  match m with
  | Some l => forallb text_ok l
  | None => true
  end.

(** A well-formed table: unique column names, not the single column
    [Var1], at least one column without nested tables, well-formed
    columns of one length, and metadata that is stored whole. *)
Fixpoint wf_table (df : DataFrame) : bool :=
  match df with
  | mkDataFrame cols vd vu =>
      bool_decide (NoDup (map name cols)) &&
      negb (bool_decide (map name cols = ["Var1"])) &&
      existsb (λ col, negb (existsb isinstance_DataFrame (values col))) cols &&
      forallb (wf_column wf_table (nrows_of cols)) cols &&
      metadata_ok vd && metadata_ok vu
  end.

(** Well-formedness in the words of the specification: a table that is
    not empty and no empty-table marker, with unique column names,
    homogeneous columns, consistent nesting and at least one column
    that is not nested. *)
Section SpecWellFormed.
Context (spec_well_formed : DataFrame → bool).

Definition spec_column (nrows : nat) (col : Series value) : bool :=
  bool_decide (length (values col) = nrows) &&
  if existsb isinstance_DataFrame (values col) then
    forallb (λ z, match z with VTable t => spec_well_formed t | _ => false end)
            (values col)
  else homogeneous (values col).
End SpecWellFormed.

Fixpoint spec_well_formed (df : DataFrame) : bool :=
  match df with
  | mkDataFrame cols _ _ =>
      bool_decide (NoDup (map name cols)) &&
      negb (bool_decide (cols = [])) &&
      negb (bool_decide (map name cols = ["Var1"])) &&
      existsb (λ col, negb (existsb isinstance_DataFrame (values col))) cols &&
      forallb (spec_column spec_well_formed (nrows_of cols)) cols
  end.

(** The metadata sequence a reader sees: the stored one when it has
    entries, else one empty byte string per column. *)
Definition default_metadata (ncols : nat) (m : option (list string)) : list string :=
  match m with
  | Some (x :: l) => x :: l
  | _ => replicate ncols ""
  end.

Section WithDefaults.
Context (with_defaults : DataFrame → DataFrame).

Definition with_defaults_value (z : value) : value :=
  match z with
  | VTable df => VTable (with_defaults df)
  | _ => z
  end.

Definition with_defaults_column (col : Series value) : Series value :=
  mkSeriesIndexed (name col) (dtype_ col) (map with_defaults_value (values col))
    (index col).
End WithDefaults.

(** The table with [default_metadata] in place of its two attributes,
    at every level of nesting; columns, names, dtypes, row labels and
    primitive values are untouched. *)
Fixpoint with_defaults (df : DataFrame) : DataFrame :=
  match df with
  | mkDataFrame cols vd vu =>
      mkDataFrame (map (with_defaults_column with_defaults) cols)
        (Some (default_metadata (length cols) vd))
        (Some (default_metadata (length cols) vu))
  end.

(** Both attributes are set and have entries, at every level. *)
Fixpoint metadata_set (df : DataFrame) : bool :=
  match df with
  | mkDataFrame cols vd vu =>
      bool_decide (vd ≠ None ∧ vd ≠ Some []) &&
      bool_decide (vu ≠ None ∧ vu ≠ Some []) &&
      forallb (λ col,
        forallb (λ z, match z with VTable t => metadata_set t | _ => true end)
                (values col)) cols
  end.

(** The three datasets that [write_df_metadata] adds, each tagged
    ["cellstr"]. *)
Definition cellstr_dataset (arr : dtype * list scalar) : node :=
  Dataset {["matlab_type" := AttrBytes "cellstr"]} arr.1 arr.2.

Definition metadata_children (df : DataFrame) : list (string * node) :=
  [("VariableNames", cellstr_dataset (asarray_bytes (map name (columns df))));
   ("VariableDescriptions", cellstr_dataset (metadata_array (VariableDescriptions df)));
   ("VariableUnits", cellstr_dataset (metadata_array (VariableUnits df)))].

(** The children [Element<i>], [Element<i+1>], ... of a nested column. *)
Fixpoint element_children (i : nat) (es : list node) : list (string * node) :=
  match es with
  | [] => []
  | e :: es' => ("Element" +:+ pretty i, e) :: element_children (S i) es'
  end.

(** The tag the Type Tagger gives a column it accepts. *)
Definition column_tag (col : Series value) : string :=
  match infer_column_matlab_type col with
  | Ok tag => tag
  | Raise _ => ""
  end.

Section Layout.
Context (table_children : DataFrame → list (string * node)).

Definition table_node (df : DataFrame) : node :=
  Group {["matlab_type" := AttrBytes "table"]} (table_children df).

Definition row_node (z : value) : node :=
  match z with
  | VTable df => table_node df
  | _ => Group ∅ []
  end.

(** The node of a column: a group of row tables, or a dataset. *)
Definition column_node (col : Series value) : node :=
  if existsb isinstance_DataFrame (values col) then
    Group {["matlab_type" := AttrBytes "table"]}
      (element_children 1 (map row_node (values col))
       ++ metadata_children (DataFrame_of_series col))
  else
    Dataset {["matlab_type" := AttrBytes (column_tag col)]} (dtype_ col)
      (omap as_scalar (values col)).
End Layout.

(** The children of the node of a table, as the encoder creates them
    (proved below): the metadata datasets, then one child per column. *)
Fixpoint table_children (df : DataFrame) : list (string * node) :=
  metadata_children df
  ++ map (λ col, (name col, column_node table_children col)) (columns df).

(** Induction on tables through their nested columns. *)
Section DataFrameInduction.
Context (P : DataFrame → Prop).

Definition on_row (z : value) : Prop :=
  match z with VTable t => P t | _ => True end.

Definition on_rows (col : Series value) : Prop := Forall on_row (values col).

Context (step : ∀ cols vd vu, Forall on_rows cols → P (mkDataFrame cols vd vu)).

Fixpoint DataFrame_nested_ind (df : DataFrame) : P df :=
  match df with
  | mkDataFrame cols vd vu =>
      step cols vd vu
        ((fix on_cols (cols : list (Series value)) : Forall on_rows cols :=
            match cols with
            | [] => @List.Forall_nil _ on_rows
            | col :: cols' =>
                @List.Forall_cons _ on_rows col cols'
                  ((fix on_values (vs : list value) : Forall on_row vs :=
                      match vs with
                      | [] => @List.Forall_nil _ on_row
                      | z :: vs' =>
                          @List.Forall_cons _ on_row z vs'
                            (match z return on_row z with
                             | VTable t => DataFrame_nested_ind t
                             | _ => I
                             end)
                            (on_values vs')
                      end) (values col))
                  (on_cols cols')
            end) cols)
  end.
End DataFrameInduction.

(** What the round trip carries through the induction: the encoder
    writes the layout, the decoder reads it back. *)
Definition encodes (df : DataFrame) : Prop :=
  wf_table df = true →
  ∀ a, write_df (Group a []) df =
       Ok (Group (<["matlab_type" := AttrBytes "table"]> a) (table_children df)).

Definition decodes {BI : Builtins} (df : DataFrame) : Prop :=
  wf_table df = true →
  ∀ a, parse_bronhdf (Group a (table_children df)) = Ok (with_defaults df).

(** ** Example tables and files *)

(** A filter table of one row, used as a row of a nested column. *)
Definition example_filter (depth : Z) : DataFrame :=
  mkDataFrame [mkSeries "depth" int64 [VScalar (SInt depth)]] (Some ["filter depth"]) None.

(** A table of two rows: an integer column, a column of byte strings
    and a nested column. *)
Definition example_table : DataFrame :=
  mkDataFrame
    [mkSeries "filters" object_ [VTable (example_filter 5); VTable (example_filter 6)];
     mkSeries "tube" int64 [VScalar (SInt 1); VScalar (SInt 2)];
     mkSeries "code" object_ [VScalar (SBytes "a"); VScalar (SBytes "b")]]
    None (Some ["-"; "-"; "-"]).


(** A stored table whose one real column is named [Var1]. *)
Definition var1_node : node :=
  Group {["matlab_type" := AttrBytes "table"]}
    [("VariableNames", Dataset ∅ object_ [SBytes "Var1"]);
     ("VariableDescriptions", Dataset ∅ (bytes_ 5) [SBytes "level"]);
     ("VariableUnits", Dataset ∅ (bytes_ 1) [SBytes "m"]);
     ("Var1", Dataset {["matlab_type" := AttrBytes "int64"]} int64 [SInt 1; SInt 2])].

(** A stored table with a nested column whose tag is the text string
    ["table"], and without stored metadata. *)
Definition example_filter_node (depth : Z) : node :=
  Group {["matlab_type" := AttrBytes "table"]} (table_children (example_filter depth)).

Definition example_node : node :=
  Group {["matlab_type" := AttrBytes "table"]}
    [("VariableNames", Dataset ∅ object_ [SBytes "filters"; SBytes "tube"]);
     ("VariableDescriptions", Dataset ∅ (bytes_ 1) []);
     ("VariableUnits", Dataset ∅ (bytes_ 1) []);
     ("filters",
      Group {["matlab_type" := AttrStr "table"]}
        [("Element0", Dataset ∅ int64 [SInt 0]);
         ("Element1", example_filter_node 5);
         ("Element2", example_filter_node 6)]);
     ("tube", Dataset {["matlab_type" := AttrBytes "int64"]} int64 [SInt 1; SInt 2])].

(** A stored table all of whose columns are groups. *)
Definition nested_only_node : node :=
  Group {["matlab_type" := AttrBytes "table"]}
    [("VariableNames", Dataset ∅ object_ [SBytes "filters"; SBytes "history"]);
     ("VariableDescriptions", Dataset ∅ (bytes_ 1) []);
     ("VariableUnits", Dataset ∅ (bytes_ 1) []);
     ("filters", Group {["matlab_type" := AttrBytes "table"]} []);
     ("history", Group {["matlab_type" := AttrBytes "table"]} [])].

(** A stored table of two columns with no descriptions and with three
    units. *)
Definition misaligned_node : node :=
  Group {["matlab_type" := AttrBytes "table"]}
    [("VariableNames", Dataset ∅ object_ [SBytes "tube"; SBytes "level"]);
     ("VariableDescriptions", Dataset ∅ (bytes_ 1) []);
     ("VariableUnits", Dataset ∅ (bytes_ 1) [SBytes "-"; SBytes "m"; SBytes "s"]);
     ("tube", Dataset {["matlab_type" := AttrBytes "int64"]} int64 [SInt 1; SInt 2]);
     ("level", Dataset {["matlab_type" := AttrBytes "float64"]} float64
                 [SFloat 1%float; SFloat 2%float])].

(** A file of three wells under the keys ["10"], ["2"] and ["1"], and
    one in which a key is no integer. *)
Definition example_gmw_node : node :=
  Group ∅
    [("History", Group ∅ (table_children example_table));
     ("Tube", Group ∅ (table_children example_table));
     ("Well", Group ∅ (table_children example_table))].

Definition example_root (k1 k2 k3 : string) : node :=
  Group {["BRON_VERSION" := AttrInts [2; 0]%Z]}
    [(k1, example_gmw_node); (k2, example_gmw_node); (k3, example_gmw_node)].

(** ** The aggregate in the file *)

(** The three tables of a [GMW] are well-formed. *)
Definition wf_gmw (gmw : GMW) : bool :=
  wf_table (History gmw) && wf_table (Tube gmw) && wf_table (Well gmw).

Definition GMW_with_defaults (gmw : GMW) : GMW :=
  mkGMW (with_defaults (History gmw)) (with_defaults (Tube gmw))
        (with_defaults (Well gmw)).

(** The children of the node of a [GMW], as [GMW.write] leaves them
    (proved below). *)
Definition gmw_children (gmw : GMW) : list (string * node) :=
  [("History", table_node table_children (History gmw));
   ("Tube", table_node table_children (Tube gmw));
   ("Well", table_node table_children (Well gmw))].

(** The child that a column leaves in the file: it carries the
    column's tag, and is a dataset of the column's values unless the tag
    is ["table"]. *)
Definition written_column (col : Series value) (c : node) : Prop :=
  ∃ tag, infer_column_matlab_type col = Ok tag ∧
         attrs_of c !! "matlab_type" = Some (AttrBytes tag) ∧
         (tag ≠ "table" →
          c = Dataset {["matlab_type" := AttrBytes tag]} (dtype_ col)
                (omap as_scalar (values col))).

(** What the induction carries: the decoded form of a well-formed table
    is well-formed and has its metadata set. *)
Definition comes_back_well_formed (df : DataFrame) : Prop :=
  wf_table df = true →
  wf_table (with_defaults df) = true ∧ metadata_set (with_defaults df) = true.

(** * Properties *)

(** ** The error monad and the container *)

Lemma bind_Ok {A B} (f : A → result B) (a : A) : (Ok a ≫= f) = f a.
Proof. reflexivity. Qed.

Lemma bind_Raise {A B} (f : A → result B) (e : exn) : (Raise e ≫= f) = Raise e.
Proof. reflexivity. Qed.

Lemma bind_Ok_inv {A B} (m : result A) (f : A → result B) (b : B) :
  (m ≫= f) = Ok b → ∃ a, m = Ok a ∧ f a = Ok b.
Proof. destruct m as [a|e]; [eauto | discriminate]. Qed.

Lemma assoc_with_assoc {A B} k (found : A → B) missing l :
  assoc_with k found missing l =
  match assoc k l with Some a => found a | None => missing end.
Proof.
  unfold assoc. induction l as [|[k' a] l IH]; simpl; [done|].
  destruct (String.eqb k k'); done.
Qed.

Lemma assoc_app {A} k (l1 l2 : list (string * A)) :
  assoc k (l1 ++ l2) =
  match assoc k l1 with Some a => Some a | None => assoc k l2 end.
Proof.
  unfold assoc. induction l1 as [|[k' a] l1 IH]; simpl; [done|].
  destruct (String.eqb k k'); done.
Qed.

Lemma assoc_cons {A} k k' (a : A) l :
  assoc k ((k', a) :: l) = if String.eqb k k' then Some a else assoc k l.
Proof. reflexivity. Qed.

Lemma assoc_None {A} k (l : list (string * A)) :
  assoc k l = None ↔ k ∉ map fst l.
Proof.
  induction l as [|[k' a] l IH].
  - split; [intros _; apply not_elem_of_nil | done].
  - rewrite assoc_cons, fmap_cons, not_elem_of_cons; simpl.
    destruct (String.eqb_spec k k') as [->|Hne].
    + split; [done | intros [Hn _]; done].
    + rewrite IH. tauto.
Qed.

Lemma getitem_with_bind {B} n k (cont : node → result B) :
  getitem_with n k cont = getitem n k ≫= cont.
Proof.
  destruct n as [a dt d|a ch]; simpl; [done|].
  unfold getitem; simpl. rewrite !assoc_with_assoc. by destruct (assoc k ch).
Qed.

Lemma getitem_Group a ch k :
  getitem (Group a ch) k =
  match assoc k ch with Some c => Ok c | None => Raise (KeyError k) end.
Proof. unfold getitem; simpl. apply assoc_with_assoc. Qed.

Lemma has_child_Group a ch k :
  has_child k (Group a ch) = bool_decide (k ∈ map fst ch).
Proof.
  simpl. apply bool_decide_ext. rewrite <-not_eq_None_Some, assoc_None.
  split; [apply dec_stable | tauto].
Qed.

(** ** Type Tagger *)

Lemma dtype_name_not_table d : dtype_name d ≠ "table".
Proof. destruct d as [| | | | | | |[|n]|]; simpl; discriminate. Qed.

Lemma dtype_tag_not_table d : dtype_tag d ≠ "table".
Proof.
  unfold dtype_tag. destruct (String.eqb _ "bytes"); [done|]. apply dtype_name_not_table.
Qed.

(** The tag is ["table"] exactly when some element is a nested table. *)
Lemma infer_table_iff col :
  infer_column_matlab_type col = Ok "table" ↔
  existsb isinstance_DataFrame (values col) = true.
Proof.
  unfold infer_column_matlab_type.
  destruct (existsb isinstance_DataFrame (values col)); simpl; [done|].
  split; [|done]. intros Hr. exfalso.
  case_bool_decide; simpl in Hr.
  - injection Hr. apply (dtype_tag_not_table (dtype_ col)).
  - case_bool_decide; simpl in Hr; [|discriminate].
    destruct (series_getitem0 col) as [z|e]; simpl in Hr; [|discriminate].
    injection Hr. apply (dtype_tag_not_table (np_dtype (type_located z))).
Qed.

Lemma on_child_list_Raise k body l :
  (∀ c, ∃ e, body c = Raise e) → ∃ e, on_child_list k body l = Raise e.
Proof.
  intros Hb. induction l as [|[k' c] l [e IH]]; simpl; [eauto|].
  destruct (String.eqb k k').
  - destruct (Hb c) as [e' ->]. eauto.
  - rewrite IH. eauto.
Qed.

Lemma on_child_Raise k body n :
  (∀ c, ∃ e, body c = Raise e) → ∃ e, on_child k body n = Raise e.
Proof.
  intros Hb. destruct n as [a dt d|a ch]; simpl; [eauto|].
  destruct (on_child_list_Raise k body ch Hb) as [e ->]. eauto.
Qed.

Lemma write_df_any_Raise write_df g z :
  isinstance_DataFrame z = false → ∃ e, write_df_any write_df g z = Raise e.
Proof. destruct z; simpl; [eauto | eauto | eauto | done]. Qed.

Lemma for_each_write_element_Raise write_df l st :
  forallb isinstance_DataFrame l = false →
  ∃ e, for_each (write_element write_df) l st = Raise e.
Proof.
  revert st. induction l as [|z l IH]; intros [i g] Hl; simpl in Hl; [discriminate|].
  simpl. destruct (create_group _ g) as [g1|e1]; simpl; [|eauto].
  destruct (isinstance_DataFrame z) eqn:Hz; simpl in Hl.
  - destruct (on_child _ _ g1) as [g2|e2]; simpl; eauto.
  - destruct (on_child_Raise ("Element" +:+ pretty i)
                (λ e, write_df_any write_df e z) g1) as [e ->]; simpl; [|eauto].
    intros c. by apply write_df_any_Raise.
Qed.

Lemma write_df_column_mixed_Raise hdfgroup col :
  mixed col → ∃ e, write_df_column hdfgroup col = Raise e.
Proof.
  intros [Hany Hall]. unfold write_df_column, write_df_column_with.
  rewrite (proj2 (infer_table_iff col) Hany); simpl.
  destruct (create_group (name col) hdfgroup) as [g1|e1]; simpl; [|eauto].
  apply on_child_Raise. intros c.
  destruct (for_each_write_element_Raise write_df (values col)
              (1, attrs_create "matlab_type" (AttrBytes "table") c) Hall) as [e ->].
  simpl; eauto.
Qed.

Lemma write_df_eq hdfgroup df :
  write_df hdfgroup df =
  (hdfgroup ← write_df_metadata hdfgroup df;
   for_each write_df_column (columns df) hdfgroup).
Proof. by destruct df. Qed.

Lemma for_each_Raise_elem {S A} (body : S → A → result S) l x :
  x ∈ l → (∀ s, ∃ e, body s x = Raise e) → ∀ s, ∃ e, for_each body l s = Raise e.
Proof.
  intros Hx Hb. induction l as [|y l IH]; intros s; [by apply elem_of_nil in Hx|].
  simpl. apply elem_of_cons in Hx as [->|Hx].
  - destruct (Hb s) as [e ->]. simpl; eauto.
  - destruct (body s y) as [s'|e]; simpl; eauto.
Qed.

(** C3, as the claim states it, fails: a column of one nested table and
    one integer is tagged ["table"] and no inference error is raised. *)
Lemma tagger_table_only_if_all_refuted :
  ¬ (∀ col : Series value,
       (infer_column_matlab_type col = Ok "table" →
        forallb isinstance_DataFrame (values col) = true) ∧
       (mixed col → ∃ e, infer_column_matlab_type col = Raise e)).
Proof.
  intros Hclaim.
  destruct (Hclaim (mkSeries "m" object_ [VTable (example_filter 5); VScalar (SInt 1)]))
    as [H _].
  specialize (H eq_refl). discriminate H.
Qed.

(** C3, amended: the tag is ["table"] exactly when at least one element
    is a nested table; a column mixing nested tables with other values
    is tagged ["table"] without an inference error, and writing it, or a
    table that holds it, raises. *)
Theorem tagger_table_iff_any (col : Series value) :
  (infer_column_matlab_type col = Ok "table" ↔
   existsb isinstance_DataFrame (values col) = true) ∧
  (mixed col →
   infer_column_matlab_type col = Ok "table" ∧
   (∀ hdfgroup, ∃ e, write_df_column hdfgroup col = Raise e) ∧
   (∀ hdfgroup df, col ∈ columns df → ∃ e, write_df hdfgroup df = Raise e)).
Proof.
  split; [apply infer_table_iff|].
  intros Hmixed. split; [apply infer_table_iff, Hmixed|]. split.
  - intros g. by apply write_df_column_mixed_Raise.
  - intros g df Hin. rewrite write_df_eq.
    destruct (write_df_metadata g df) as [g'|e]; simpl; [|eauto].
    apply (for_each_Raise_elem _ _ col); [done|].
    intros s. by apply write_df_column_mixed_Raise.
Qed.

Lemma tagger_table_iff_any_witness :
  let col := mkSeries "m" object_ [VTable (example_filter 5); VScalar (SInt 1)] in
  mixed col ∧
  infer_column_matlab_type col = Ok "table" ∧
  (∃ e, write_df_column (Group ∅ []) col = Raise e).
Proof.
  intros col.
  assert (Hm : mixed col) by (split; reflexivity).
  split; [exact Hm|].
  destruct (proj2 (tagger_table_iff_any col) Hm) as (Ht & Hw & _).
  split; [exact Ht | exact (Hw (Group ∅ []))].
Defined.

(** *** Object columns: the dtypes of the classes of the elements *)

Lemma col_dtypes_singleton col d :
  col_dtypes col = {[d]} →
  values col ≠ [] ∧ ∀ z, z ∈ values col → np_dtype (type_ z) = d.
Proof.
  unfold col_dtypes. intros Hs. split.
  - intros Hnil. rewrite Hnil in Hs. simpl in Hs.
    assert (Hd : d ∈ (∅ : gset dtype)) by (rewrite Hs; by apply elem_of_singleton).
    by apply not_elem_of_empty in Hd.
  - intros z Hz. apply (elem_of_singleton (C := gset dtype)). rewrite <-Hs.
    apply elem_of_list_to_set. by apply (list_elem_of_fmap_2 (λ z, np_dtype (type_ z))).
Qed.


Lemma col_dtypes_all col d :
  values col ≠ [] → (∀ z, z ∈ values col → np_dtype (type_ z) = d) →
  col_dtypes col = {[d]}.
Proof.
  intros Hne Hall. unfold col_dtypes. apply set_eq. intros d'.
  rewrite elem_of_singleton, elem_of_list_to_set.
  change (map ?f ?l) with (f <$> l). rewrite list_elem_of_fmap. split.
  - intros (z & -> & Hz). by apply Hall.
  - intros ->. destruct (values col) as [|z l]; [done|].
    exists z. split; [|left]. symmetry. apply Hall. left.
Qed.


Lemma filter_labels_absent (l : list Z) (vs : list value) :
  Forall (λ i, i ≠ 0%Z) l →
  List.filter (λ iv : Z * value, Z.eqb iv.1 0) (zip l vs) = [].
Proof.
  intros Hl. revert vs. induction Hl as [|i l Hi _ IH]; intros [|z vs]; simpl; try done.
  apply Z.eqb_neq in Hi. rewrite Hi. apply IH.
Qed.

(** On the default row labels [col[0]] is the first row. *)
Lemma rows_labelled_default col z vs :
  index col = RangeIndex (length (values col)) →
  values col = z :: vs →
  rows_labelled 0 col = [z].
Proof.
  unfold rows_labelled, RangeIndex. intros -> ->. simpl.
  rewrite filter_labels_absent; [done|].
  apply Forall_forall. intros i Hi.
  apply list_elem_of_fmap in Hi as (n & -> & Hn). apply elem_of_seq in Hn. lia.
Qed.

Lemma infer_object_column col :
  dtype_ col = object_ →
  existsb isinstance_DataFrame (values col) = false →
  infer_column_matlab_type col =
    if bool_decide (size (col_dtypes col) = 1) then
      z ← series_getitem0 col; Ok (dtype_tag (np_dtype (type_located z)))
    else Raise (ValueError "Unable to infer matlab_type of column" (name col)).
Proof.
  intros Hdt Hany. unfold infer_column_matlab_type. rewrite Hany, Hdt.
  rewrite bool_decide_false by (intros Hn; by apply Hn).
  case_bool_decide; [|done]. by destruct (series_getitem0 col).
Qed.

Lemma infer_object_one_dtype col d :
  dtype_ col = object_ →
  existsb isinstance_DataFrame (values col) = false →
  col_dtypes col = {[d]} →
  index col = RangeIndex (length (values col)) →
  infer_column_matlab_type col = Ok (dtype_tag d).
Proof.
  intros Hdt Hany Hd Hidx. rewrite infer_object_column by done.
  rewrite bool_decide_true by (rewrite Hd; apply size_singleton).
  apply col_dtypes_singleton in Hd as [Hne Hall].
  destruct (values col) as [|z vs] eqn:Hv; [done|].
  unfold series_getitem0. rewrite (rows_labelled_default col z vs) by (by rewrite ?Hv).
  simpl. by rewrite (Hall z) by left.
Qed.


(** Nor do two distinct runtime types make the tagger fail when no
    element is a table: a Python [int] and a [numpy.int64] have one
    dtype, and the column is tagged ["int64"]; a column of [None] is
    tagged ["object"]. *)
Example two_classes_one_dtype :
  let col := mkSeries "n" object_ [VScalar (SInt 1); VNumpy (SInt 2)] in
  size (runtime_types col) = 2 ∧
  infer_column_matlab_type col = Ok "int64" ∧
  infer_column_matlab_type (mkSeries "n" object_ [VNone; VNone]) = Ok "object".
Proof. vm_compute. repeat split; reflexivity. Qed.



(** ** Version Gate *)

(** C4: the reader is gated on the root's [BRON_VERSION]: without the
    attribute it raises [KeyError]; with a major version other than 2 it
    raises [NotImplementedError]; with major version 2 and any minor the
    gate passes and the reader goes on to the children, none of which
    has been looked at before. *)
Theorem version_gate {BI : Builtins} (hdfgroup : node) :
  (attrs_of hdfgroup !! "BRON_VERSION" = None →
   _check_bron_version hdfgroup = Raise (KeyError "BRON_VERSION") ∧
   read_bron2_to_gmws hdfgroup = Raise (KeyError "BRON_VERSION")) ∧
  (∀ major rest,
     attrs_of hdfgroup !! "BRON_VERSION" = Some (AttrInts (major :: rest)) →
     major ≠ BRON_VERSION.1 →
     _check_bron_version hdfgroup =
       Raise (NotImplementedError (AttrInts (major :: rest))) ∧
     read_bron2_to_gmws hdfgroup =
       Raise (NotImplementedError (AttrInts (major :: rest)))) ∧
  (∀ minor,
     attrs_of hdfgroup !! "BRON_VERSION" = Some (AttrInts (BRON_VERSION.1 :: minor)) →
     _check_bron_version hdfgroup = Ok () ∧
     read_bron2_to_gmws hdfgroup =
       for_each
         (λ gmws k, gmw ← getitem_with hdfgroup k read_gmw; Ok (dict_setitem k gmw gmws))
         (sorted_gkeys hdfgroup) []).
Proof.
  unfold read_bron2_to_gmws, _check_bron_version, attrs_getitem.
  split; [|split].
  - intros ->. rewrite bool_decide_false by (by intros [? ?]). done.
  - intros major rest -> Hne. rewrite bool_decide_true by eauto. simpl.
    destruct (Z.eqb_spec major 2); [done|]. done.
  - intros minor ->. rewrite bool_decide_true by eauto. done.
Qed.

Lemma version_gate_witness :
  let legacy := Group ∅ [] in
  let other := Group {["BRON_VERSION" := AttrInts [3; 0]%Z]} [] in
  let newer := Group {["BRON_VERSION" := AttrInts [2; 7]%Z]} [] in
  read_bron2_to_gmws (BI := ascii_builtins) legacy = Raise (KeyError "BRON_VERSION") ∧
  read_bron2_to_gmws (BI := ascii_builtins) other =
    Raise (NotImplementedError (AttrInts [3; 0]%Z)) ∧
  _check_bron_version newer = Ok () ∧
  read_bron2_to_gmws (BI := ascii_builtins) newer = Ok [].
Proof.
  intros legacy other newer. split; [|split].
  - apply (version_gate (BI := ascii_builtins) legacy). reflexivity.
  - apply (version_gate (BI := ascii_builtins) other); [reflexivity | done].
  - destruct (proj2 (proj2 (version_gate (BI := ascii_builtins) newer))
                [7%Z] eq_refl) as [Hgate Hread].
    split; [exact Hgate|]. rewrite Hread. reflexivity.
Defined.

(** ** Table Decoder *)

Lemma for_each_ext {S A} (body body' : S → A → result S) l s :
  (∀ s x, x ∈ l → body s x = body' s x) → for_each body l s = for_each body' l s.
Proof.
  revert s. induction l as [|x l IH]; intros s Hb; simpl; [done|].
  rewrite (Hb s x) by left. destruct (body' s x) as [s'|e]; simpl; [|done].
  apply IH. intros s'' y Hy. apply Hb. by right.
Qed.

Lemma for_each_map {S A B} (body : S → B → result S) (f : A → B) l s :
  for_each body (map f l) s = for_each (λ s x, body s (f x)) l s.
Proof.
  revert s. induction l as [|x l IH]; intros s; simpl; [done|].
  destruct (body s (f x)); simpl; [apply IH | done].
Qed.

Section DecoderProperties.
Context {BI : Builtins}.

Lemma parse_bronhdf_eq hdfgroup :
  parse_bronhdf hdfgroup =
  (dataset ← getitem hdfgroup "VariableNames";
   colnames ← read_all dataset;
   let colnames := colnames.2 in
   if is_empty_marker colnames then Ok empty_df
   else
     vd ← read_metadata hdfgroup "VariableDescriptions" (length colnames);
     vu ← read_metadata hdfgroup "VariableUnits" (length colnames);
     nrows ← find_nrows hdfgroup colnames colnames;
     df ← for_each
            (λ df colname, col ← read_column hdfgroup nrows colname; setitem df col)
            colnames [];
     Ok (mkDataFrame df (Some vd) (Some vu))).
Proof. by destruct hdfgroup. Qed.

Lemma read_column_eq hdfgroup nrows colname :
  read_column hdfgroup nrows colname =
  (k ← key_of colname;
   child ← getitem hdfgroup k;
   ml_type ← attrs_getitem child "matlab_type";
   other ← not_table_tag ml_type;
   if (other : bool) then
     data ← read_all child;
     Ok (mkSeries k (series_dtype data.1) (map VScalar data.2))
   else
     colcontents ← read_elements parse_bronhdf child nrows;
     Ok (mkSeries k object_ (map VTable colcontents))).
Proof.
  unfold read_column, read_column_with.
  destruct (key_of colname) as [k|e]; simpl; [|done].
  by rewrite getitem_with_bind.
Qed.

Lemma read_elements_eq parse col_group nrows :
  read_elements parse col_group nrows =
  comprehension
    (λ i_row, e ← getitem col_group ("Element" +:+ pretty i_row); parse e)
    (seq 1 nrows).
Proof.
  unfold read_elements. generalize (seq 1 nrows) as l.
  induction l as [|i l IH]; simpl; [done|].
  by rewrite getitem_with_bind, IH.
Qed.

(** *** What is read of the stored names *)

Lemma key_of_read c : key_of (h5_read c) = key_of c.
Proof. by destruct c. Qed.

Lemma astype_bytes_read c : astype_bytes (h5_read c) = astype_bytes c.
Proof. by destruct c. Qed.

Lemma is_empty_marker_read l : is_empty_marker (map h5_read l) = is_empty_marker l.
Proof. destruct l as [|c [|c' l]]; [done | by destruct c | done]. Qed.

Lemma read_column_read hdfgroup nrows c :
  read_column hdfgroup nrows (h5_read c) = read_column hdfgroup nrows c.
Proof. by rewrite !read_column_eq, key_of_read. Qed.

Lemma find_nrows_read hdfgroup all colnames :
  find_nrows hdfgroup (map h5_read all) (map h5_read colnames) =
  find_nrows hdfgroup all colnames.
Proof.
  induction colnames as [|c colnames IH]; simpl.
  - rewrite map_map. do 2 f_equal. apply map_ext. intros c. apply astype_bytes_read.
  - rewrite key_of_read. destruct (key_of c) as [k|e]; simpl; [|done].
    destruct (getitem hdfgroup k) as [[a dt data|a ch]|e]; simpl; done.
Qed.

(** The decoder in terms of the names as they are stored. *)
Lemma parse_bronhdf_stored hdfgroup a dt (colnames : list scalar) :
  getitem hdfgroup "VariableNames" = Ok (Dataset a dt colnames) →
  parse_bronhdf hdfgroup =
    if is_empty_marker colnames then Ok empty_df
    else
      vd ← read_metadata hdfgroup "VariableDescriptions" (length colnames);
      vu ← read_metadata hdfgroup "VariableUnits" (length colnames);
      nrows ← find_nrows hdfgroup colnames colnames;
      df ← for_each
             (λ df colname, col ← read_column hdfgroup nrows colname; setitem df col)
             colnames [];
      Ok (mkDataFrame df (Some vd) (Some vu)).
Proof.
  intros Hnames. rewrite parse_bronhdf_eq, Hnames. cbn [mbind result_bind read_all snd].
  rewrite is_empty_marker_read, length_map, find_nrows_read.
  destruct (is_empty_marker colnames); [done|].
  destruct (read_metadata _ _ _) as [vd|e]; simpl; [|done].
  destruct (read_metadata _ _ _) as [vu|e]; simpl; [|done].
  destruct (find_nrows _ _ _) as [nrows|e]; simpl; [|done].
  rewrite for_each_map.
  rewrite (for_each_ext _
             (λ df colname, col ← read_column hdfgroup nrows colname; setitem df col));
    [done|].
  intros df c _. by rewrite read_column_read.
Qed.

(** C2: a table node whose [VariableNames] is empty, or is the single
    entry [b"Var1"], decodes to the empty table whatever else the node
    holds; nothing but [VariableNames] decides the result. *)
Theorem empty_marker_decodes_empty (hdfgroup : node) a dt (colnames : list scalar) :
  getitem hdfgroup "VariableNames" = Ok (Dataset a dt colnames) →
  colnames = [] ∨ colnames = [SBytes "Var1"] →
  parse_bronhdf hdfgroup = Ok empty_df ∧
  columns empty_df = [] ∧
  VariableDescriptions empty_df = Some [] ∧
  VariableUnits empty_df = Some [].
Proof.
  intros Hnames Hmarker. split; [|done].
  rewrite (parse_bronhdf_stored _ _ _ _ Hnames).
  by destruct Hmarker as [-> | ->].
Qed.

(** *** The stored tag and the two ways of reading a column *)

Lemma not_table_tag_string ml_type s :
  ml_type = AttrBytes s ∨ ml_type = AttrStr s →
  not_table_tag ml_type = Ok (negb (String.eqb s "table")).
Proof.
  intros [-> | ->]; simpl; f_equal.
  - rewrite andb_true_r. destruct (String.eqb_spec s "table") as [->|Hne].
    + by rewrite bool_decide_false by (intros Hn; by apply Hn).
    + rewrite bool_decide_true; [done | congruence].
  - destruct (String.eqb_spec s "table") as [->|Hne].
    + by rewrite bool_decide_false by (intros Hn; by apply Hn).
    + rewrite bool_decide_true; [done | congruence].
Qed.


(** *** Metadata *)

Lemma read_metadata_empty hdfgroup metaname ncols a dt :
  getitem hdfgroup metaname = Ok (Dataset a dt []) →
  read_metadata hdfgroup metaname ncols = Ok (replicate ncols "").
Proof. unfold read_metadata. intros ->. reflexivity. Qed.

Lemma read_metadata_stored hdfgroup metaname ncols a dt data :
  getitem hdfgroup metaname = Ok (Dataset a dt data) →
  data ≠ [] →
  read_metadata hdfgroup metaname ncols = Ok (map astype_bytes data).
Proof.
  unfold read_metadata. intros -> Hne. simpl.
  rewrite bool_decide_true by (destruct data; [done | simpl; lia]).
  rewrite map_map. f_equal. apply map_ext. intros c. apply astype_bytes_read.
Qed.

Lemma setitem_length df col df' :
  setitem df col = Ok df' → length df' = S (length df).
Proof.
  unfold setitem. repeat case_bool_decide; intros Hset; inversion Hset; subst;
    rewrite length_app; simpl; rewrite ?length_map; lia.
Qed.

Lemma for_each_setitem_length (f : scalar → result (Series value)) l df df' :
  for_each (λ df colname, col ← f colname; setitem df col) l df = Ok df' →
  length df' = length df + length l.
Proof.
  revert df. induction l as [|c l IH]; intros df; simpl.
  - intros [= <-]. lia.
  - intros Hr. apply bind_Ok_inv in Hr as (df1 & H1 & Hr).
    apply bind_Ok_inv in H1 as (col & _ & H1).
    apply setitem_length in H1. apply IH in Hr. lia.
Qed.

(** The metadata of a decoded table is what [read_metadata] returned,
    and the table has one column per name. *)
Lemma parse_metadata (hdfgroup : node) a dt (colnames : list scalar) (df : DataFrame) :
  getitem hdfgroup "VariableNames" = Ok (Dataset a dt colnames) →
  is_empty_marker colnames = false →
  parse_bronhdf hdfgroup = Ok df →
  ∃ vd vu,
    VariableDescriptions df = Some vd ∧ VariableUnits df = Some vu ∧
    read_metadata hdfgroup "VariableDescriptions" (length colnames) = Ok vd ∧
    read_metadata hdfgroup "VariableUnits" (length colnames) = Ok vu ∧
    length (columns df) = length colnames.
Proof.
  intros Hnames Hmarker Hparse.
  rewrite (parse_bronhdf_stored _ _ _ _ Hnames), Hmarker in Hparse.
  apply bind_Ok_inv in Hparse as (vd & Hvd & Hparse).
  apply bind_Ok_inv in Hparse as (vu & Hvu & Hparse).
  apply bind_Ok_inv in Hparse as (nrows & _ & Hparse).
  apply bind_Ok_inv in Hparse as (cols & Hcols & [= <-]).
  apply for_each_setitem_length in Hcols. by exists vd, vu.
Qed.

Lemma read_metadata_cases hdfgroup metaname ncols a dt data l :
  getitem hdfgroup metaname = Ok (Dataset a dt data) →
  read_metadata hdfgroup metaname ncols = Ok l →
  (data = [] → l = replicate ncols "") ∧
  (data ≠ [] → l = map astype_bytes data) ∧
  (length l = ncols ↔ data = [] ∨ length data = ncols).
Proof.
  intros Hstored Hread. destruct data as [|x data].
  - rewrite (read_metadata_empty _ _ _ _ _ Hstored) in Hread. injection Hread as <-.
    split; [done|]. split; [done|]. rewrite length_replicate. tauto.
  - rewrite (read_metadata_stored _ _ _ _ _ _ Hstored) in Hread by done.
    injection Hread as <-. split; [done|]. split; [done|].
    simpl. rewrite length_map. split; [by right | by intros [?|?]].
Qed.

(** C8, amended: when the decoder reads a non-empty table, a stored
    [VariableDescriptions] or [VariableUnits] array that is empty is
    replaced by one empty byte string per column name, and a stored
    array that has entries is returned as it is, whatever the number
    of its entries; the table that comes out has one column per name,
    so that a metadata sequence of the table has one entry per column
    exactly when the stored array was empty or had one entry per
    column name. *)
Theorem empty_metadata_synthesized (hdfgroup : node) a dt (colnames : list scalar)
    (df : DataFrame) a1 dt1 (stored_vd : list scalar) a2 dt2 (stored_vu : list scalar) :
  getitem hdfgroup "VariableNames" = Ok (Dataset a dt colnames) →
  is_empty_marker colnames = false →
  getitem hdfgroup "VariableDescriptions" = Ok (Dataset a1 dt1 stored_vd) →
  getitem hdfgroup "VariableUnits" = Ok (Dataset a2 dt2 stored_vu) →
  parse_bronhdf hdfgroup = Ok df →
  length (columns df) = length colnames ∧
  (stored_vd = [] →
   VariableDescriptions df = Some (replicate (length (columns df)) "")) ∧
  (stored_vu = [] →
   VariableUnits df = Some (replicate (length (columns df)) "")) ∧
  (stored_vd ≠ [] → VariableDescriptions df = Some (map astype_bytes stored_vd)) ∧
  (stored_vu ≠ [] → VariableUnits df = Some (map astype_bytes stored_vu)) ∧
  ∃ vd vu, VariableDescriptions df = Some vd ∧ VariableUnits df = Some vu ∧
    (length vd = length (columns df) ↔
     stored_vd = [] ∨ length stored_vd = length colnames) ∧
    (length vu = length (columns df) ↔
     stored_vu = [] ∨ length stored_vu = length colnames).
Proof.
  intros Hnames Hmarker Hstored_vd Hstored_vu Hparse.
  destruct (parse_metadata _ _ _ _ _ Hnames Hmarker Hparse)
    as (vd & vu & -> & -> & Hvd & Hvu & Hlen).
  destruct (read_metadata_cases _ _ _ _ _ _ _ Hstored_vd Hvd) as (Hvd0 & Hvd1 & Hvdn).
  destruct (read_metadata_cases _ _ _ _ _ _ _ Hstored_vu Hvu) as (Hvu0 & Hvu1 & Hvun).
  rewrite Hlen. split; [done|]. repeat split.
  - intros Hempty. by rewrite Hvd0.
  - intros Hempty. by rewrite Hvu0.
  - intros Hne. by rewrite Hvd1.
  - intros Hne. by rewrite Hvu1.
  - by exists vd, vu.
Qed.

Lemma find_nrows_first_dataset hdfgroup all pre c post n :
  Forall (stored_as_group hdfgroup) pre →
  stored_as_dataset hdfgroup c n →
  find_nrows hdfgroup all (pre ++ c :: post) = Ok n.
Proof.
  intros Hpre (k & a & dt & data & Hk & Hc & <-).
  induction Hpre as [|c' pre (k' & a' & ch' & Hk' & Hc') _ IH]; simpl.
  - by rewrite Hk, bind_Ok, Hc.
  - by rewrite Hk', bind_Ok, Hc'.
Qed.

Lemma find_nrows_all_groups hdfgroup all colnames :
  Forall (stored_as_group hdfgroup) colnames →
  find_nrows hdfgroup all colnames =
    Raise (Exception_ "Bad Bron datamodel" (map astype_bytes all)).
Proof.
  induction 1 as [|c' pre (k' & a' & ch' & Hk' & Hc') _ IH]; simpl; [done|].
  by rewrite Hk', bind_Ok, Hc'.
Qed.

(** C6: once the names and the metadata are read, the row count is
    the length of the first column, in [VariableNames] order, that is
    stored as a dataset, and the columns are read with it; when every
    column is stored as a group the decoder raises its own
    bad-datamodel exception, which is no [KeyError]. *)
Theorem row_count_from_first_dataset (hdfgroup : node) a dt
    (colnames : list scalar) (vd vu : list string) :
  getitem hdfgroup "VariableNames" = Ok (Dataset a dt colnames) →
  is_empty_marker colnames = false →
  read_metadata hdfgroup "VariableDescriptions" (length colnames) = Ok vd →
  read_metadata hdfgroup "VariableUnits" (length colnames) = Ok vu →
  (∀ pre c post n,
     colnames = pre ++ c :: post →
     Forall (stored_as_group hdfgroup) pre →
     stored_as_dataset hdfgroup c n →
     find_nrows hdfgroup colnames colnames = Ok n ∧
     parse_bronhdf hdfgroup =
       (df ← for_each
               (λ df colname, col ← read_column hdfgroup n colname; setitem df col)
               colnames [];
        Ok (mkDataFrame df (Some vd) (Some vu)))) ∧
  (Forall (stored_as_group hdfgroup) colnames →
   parse_bronhdf hdfgroup =
     Raise (Exception_ "Bad Bron datamodel" (map astype_bytes colnames)) ∧
   ∀ k, parse_bronhdf hdfgroup ≠ Raise (KeyError k)).
Proof.
  intros Hnames Hmarker Hvd Hvu.
  rewrite (parse_bronhdf_stored _ _ _ _ Hnames), Hmarker, Hvd, Hvu, !bind_Ok.
  split.
  - intros pre c post n Hsplit Hpre Hc.
    assert (Hn : find_nrows hdfgroup colnames colnames = Ok n).
    { rewrite Hsplit at 2. by apply find_nrows_first_dataset. }
    by rewrite Hn.
  - intros Hall. rewrite (find_nrows_all_groups _ _ _ Hall). simpl. done.
Qed.
End DecoderProperties.

(** C8, as the claim states it, fails: a stored table of two columns
    with no descriptions and three units decodes, and the table that
    comes out has three units for its two columns. *)
Lemma metadata_one_per_column_refuted :
  ¬ (∀ (hdfgroup : node) (df : DataFrame),
       parse_bronhdf (BI := ascii_builtins) hdfgroup = Ok df →
       columns df ≠ [] →
       ∃ vd vu, VariableDescriptions df = Some vd ∧ VariableUnits df = Some vu ∧
                length vd = length (columns df) ∧ length vu = length (columns df)).
Proof.
  intros Hclaim.
  destruct (parse_bronhdf (BI := ascii_builtins) misaligned_node) as [df|e] eqn:Hparse;
    [|vm_compute in Hparse; discriminate Hparse].
  destruct (parse_metadata (BI := ascii_builtins) misaligned_node ∅ object_ [SBytes "tube"; SBytes "level"] df
              eq_refl eq_refl Hparse) as (vd & vu & Hvd & Hvu & _ & Hread & Hlen).
  destruct (Hclaim misaligned_node df Hparse) as (vd' & vu' & _ & Hvu' & _ & Hlen').
  { intros Hnil. rewrite Hnil in Hlen. discriminate Hlen. }
  rewrite Hvu in Hvu'. injection Hvu' as <-. rewrite Hlen in Hlen'.
  vm_compute in Hread. injection Hread as <-. discriminate Hlen'.
Qed.

(** ** Table Encoder: the layout it writes *)

Lemma create_child_fresh k c a ch :
  k ∉ map fst ch → create_child k c (Group a ch) = Ok (Group a (ch ++ [(k, c)])).
Proof.
  intros Hk. unfold create_child. rewrite has_child_Group.
  by rewrite bool_decide_false.
Qed.

Lemma create_child_taken k c a ch :
  k ∈ map fst ch →
  create_child k c (Group a ch) = Raise (ValueError "name already exists" k).
Proof.
  intros Hk. unfold create_child. rewrite has_child_Group.
  by rewrite bool_decide_true.
Qed.

Lemma on_child_list_last k body ch c :
  k ∉ map fst ch →
  on_child_list k body (ch ++ [(k, c)]) = (c' ← body c; Ok (ch ++ [(k, c')])).
Proof.
  induction ch as [|[k' c0] ch IH]; simpl; intros Hk.
  - by rewrite String.eqb_refl.
  - apply not_elem_of_cons in Hk as [Hne Hk].
    apply String.eqb_neq in Hne. rewrite Hne, (IH Hk).
    by destruct (body c).
Qed.

(** Creating a child and writing it through the handle. *)
Lemma new_child {B} k c body a ch (cont : node → result B) :
  k ∉ map fst ch →
  (create_child k c (Group a ch) ≫= λ g, on_child k body g ≫= cont) =
  (c' ← body c; cont (Group a (ch ++ [(k, c')]))).
Proof.
  intros Hk. rewrite (create_child_fresh _ _ _ _ Hk). simpl.
  rewrite (on_child_list_last _ _ _ _ Hk). by destruct (body c).
Qed.

Lemma bind_ret {A} (m : result A) : (m ≫= Ok) = m.
Proof. by destruct m. Qed.

Lemma new_child_last k c body a ch :
  k ∉ map fst ch →
  (g ← create_child k c (Group a ch); on_child k body g) =
  (c' ← body c; Ok (Group a (ch ++ [(k, c')]))).
Proof.
  intros Hk. rewrite <-(new_child k c body a ch Ok Hk).
  destruct (create_child k c (Group a ch)); simpl; [|done]. by rewrite bind_ret.
Qed.

(** Goals that a name is fresh among children listed explicitly. *)
Ltac fresh_name :=
  rewrite ?map_app; simpl map;
  rewrite ?not_elem_of_app, ?not_elem_of_cons;
  repeat split; try done; try apply not_elem_of_nil.

Lemma omap_as_scalar_VScalar l : omap as_scalar (map VScalar l) = l.
Proof. induction l as [|x l IH]; simpl; [done|]. f_equal. exact IH. Qed.

Lemma forallb_is_python_bytes l :
  forallb is_python_bytes (map VScalar (map SBytes l)) = true.
Proof. induction l as [|x l IH]; simpl; done. Qed.

Lemma asarray_bytes_has_type l :
  has_hdf5_type (asarray_bytes l).1 (map VScalar (asarray_bytes l).2) = true.
Proof.
  destruct l as [|x l]; [done|]. unfold asarray_bytes, has_hdf5_type.
  cbn [fst snd]. rewrite forallb_is_python_bytes. done.
Qed.

Lemma metadata_array_has_type m :
  has_hdf5_type (metadata_array m).1 (map VScalar (metadata_array m).2) = true.
Proof. by destruct m as [[|x l]|]. Qed.

(** A dataset made of an array that has an HDF5 type. *)
Lemma create_dataset_array k (arr : dtype * list scalar) :
  has_hdf5_type arr.1 (map VScalar arr.2) = true →
  create_dataset k arr.1 (map VScalar arr.2) = create_child k (Dataset ∅ arr.1 arr.2).
Proof.
  intros Htype. unfold create_dataset. by rewrite Htype, omap_as_scalar_VScalar.
Qed.

(** The metadata arrays always have an HDF5 type. *)
Lemma write_df_metadata_eq hdfgroup df :
  write_df_metadata hdfgroup df =
  (let hdfgroup := attrs_create "matlab_type" (AttrBytes "table") hdfgroup in
   let colnames := map name (columns df) in
   let tag := attrs_create "matlab_type" (AttrBytes "cellstr") in
   hdfgroup ← create_child "VariableNames"
                (Dataset ∅ (asarray_bytes colnames).1 (asarray_bytes colnames).2) hdfgroup;
   hdfgroup ← on_child "VariableNames" (λ dataset, Ok (tag dataset)) hdfgroup;
   let vd := metadata_array (VariableDescriptions df) in
   hdfgroup ← create_child "VariableDescriptions" (Dataset ∅ vd.1 vd.2) hdfgroup;
   hdfgroup ← on_child "VariableDescriptions" (λ dataset, Ok (tag dataset)) hdfgroup;
   let vu := metadata_array (VariableUnits df) in
   hdfgroup ← create_child "VariableUnits" (Dataset ∅ vu.1 vu.2) hdfgroup;
   on_child "VariableUnits" (λ dataset, Ok (tag dataset)) hdfgroup).
Proof.
  unfold write_df_metadata. cbv zeta.
  rewrite (create_dataset_array "VariableNames") by apply asarray_bytes_has_type.
  rewrite (create_dataset_array "VariableDescriptions") by apply metadata_array_has_type.
  rewrite (create_dataset_array "VariableUnits") by apply metadata_array_has_type.
  done.
Qed.

Lemma write_df_metadata_fresh a ch df :
  (∀ k, k ∈ reserved_names → k ∉ map fst ch) →
  write_df_metadata (Group a ch) df =
    Ok (Group (<["matlab_type" := AttrBytes "table"]> a) (ch ++ metadata_children df)).
Proof.
  intros Hfresh. rewrite write_df_metadata_eq. simpl attrs_create.
  assert (H1 : "VariableNames" ∉ map fst ch) by (apply Hfresh; set_solver).
  assert (H2 : "VariableDescriptions" ∉ map fst ch) by (apply Hfresh; set_solver).
  assert (H3 : "VariableUnits" ∉ map fst ch) by (apply Hfresh; set_solver).
  rewrite (new_child "VariableNames"), bind_Ok by done.
  rewrite (new_child "VariableDescriptions"), bind_Ok.
  2:{ fresh_name. }
  rewrite (new_child_last "VariableUnits"), bind_Ok.
  2:{ fresh_name. }
  simpl. by rewrite <-!app_assoc.
Qed.

Lemma Element_inj (i j : nat) :
  "Element" +:+ pretty i = "Element" +:+ pretty j → i = j.
Proof. simpl. intros [= Hp]. by apply (inj pretty). Qed.

Lemma Element_not_reserved (i : nat) k :
  k ∈ reserved_names → k ≠ "Element" +:+ pretty i.
Proof.
  unfold reserved_names. rewrite !elem_of_cons, elem_of_nil.
  intros [->|[->|[->|[]]]]; simpl; discriminate.
Qed.

Lemma element_children_keys (i : nat) es k :
  k ∈ map fst (element_children i es) →
  ∃ j, (i ≤ j < i + length es)%nat ∧ k = "Element" +:+ pretty j.
Proof.
  revert i. induction es as [|e es IH]; intros i; simpl.
  - intros Hk. by apply elem_of_nil in Hk.
  - rewrite elem_of_cons. intros [->|Hk].
    + exists i. split; [lia | done].
    + apply IH in Hk as (j & Hj & ->). exists j. split; [lia | done].
Qed.

Lemma element_children_fresh_reserved i es k :
  k ∈ reserved_names → k ∉ map fst (element_children i es).
Proof.
  intros Hk Hin. apply element_children_keys in Hin as (j & _ & ->).
  by apply (Element_not_reserved j) in Hk.
Qed.

Lemma element_children_lookup i es (j : nat) :
  assoc ("Element" +:+ pretty (i + j)) (element_children i es) = es !! j.
Proof.
  revert i j. induction es as [|e es IH]; intros i j; [done|].
  cbn [element_children]. rewrite assoc_cons. destruct j as [|j].
  - by rewrite Nat.add_0_r, String.eqb_refl.
  - destruct (String.eqb_spec ("Element" +:+ pretty (i + S j)) ("Element" +:+ pretty i))
      as [Heq|_]; [apply Element_inj in Heq; lia|].
    replace (i + S j) with (S i + j) by lia. apply IH.
Qed.

Lemma element_children_Element0 (i : nat) es :
  (1 ≤ i)%nat → assoc "Element0" (element_children i es) = None.
Proof.
  intros Hi. apply assoc_None. intros Hin.
  apply element_children_keys in Hin as (j & Hj & Heq).
  apply (Element_inj 0 j) in Heq. lia.
Qed.

Lemma for_each_write_element write_df vs es (i : nat) a ch :
  Forall2 (λ z e, write_df_any write_df (Group ∅ []) z = Ok e) vs es →
  (∀ j, (i ≤ j)%nat → "Element" +:+ pretty j ∉ map fst ch) →
  for_each (write_element write_df) vs (i, Group a ch) =
    Ok (i + length vs, Group a (ch ++ element_children i es)).
Proof.
  intros Hes. revert i ch. induction Hes as [|z e vs es Hz _ IH]; intros i ch Hfresh.
  - simpl. by rewrite Nat.add_0_r, app_nil_r.
  - cbn [for_each write_element]. unfold create_group.
    rewrite (new_child ("Element" +:+ pretty i)); [|apply Hfresh; lia].
    rewrite Hz, !bind_Ok. rewrite IH.
    + cbn [element_children length]. rewrite <-app_assoc.
      by replace (S i + length vs) with (i + S (length vs)) by lia.
    + intros j Hj. rewrite map_app, not_elem_of_app. split; [apply Hfresh; lia|].
      simpl map. rewrite not_elem_of_cons. split; [|apply not_elem_of_nil].
      intros Heq. apply Element_inj in Heq. lia.
Qed.

Lemma write_nested_column a ch col es :
  existsb isinstance_DataFrame (values col) = true →
  Forall2 (λ z e, write_df_any write_df (Group ∅ []) z = Ok e) (values col) es →
  name col ∉ map fst ch →
  write_df_column (Group a ch) col =
    Ok (Group a (ch ++ [(name col,
          Group {["matlab_type" := AttrBytes "table"]}
            (element_children 1 es ++ metadata_children (DataFrame_of_series col)))])).
Proof.
  intros Hany Hes Hfresh. unfold write_df_column, write_df_column_with.
  rewrite (proj2 (infer_table_iff col) Hany), bind_Ok.
  change (String.eqb "table" "table") with true. cbv iota.
  unfold create_group. rewrite (new_child_last (name col)) by done.
  simpl attrs_create.
  rewrite (for_each_write_element write_df (values col) es 1 _ []) by
    (done || intros; apply not_elem_of_nil).
  rewrite bind_Ok. simpl snd. simpl app.
  rewrite write_df_metadata_fresh by (intros; by apply element_children_fresh_reserved).
  rewrite bind_Ok. by rewrite insert_insert_eq.
Qed.

Lemma write_scalar_column a ch col tag :
  infer_column_matlab_type col = Ok tag →
  existsb isinstance_DataFrame (values col) = false →
  has_hdf5_type (dtype_ col) (values col) = true →
  name col ∉ map fst ch →
  write_df_column (Group a ch) col =
    Ok (Group a (ch ++ [(name col,
          Dataset {["matlab_type" := AttrBytes tag]} (dtype_ col)
            (omap as_scalar (values col)))])).
Proof.
  intros Htag Hany Htype Hfresh. unfold write_df_column, write_df_column_with.
  rewrite Htag, bind_Ok.
  destruct (String.eqb_spec tag "table") as [->|_].
  { apply infer_table_iff in Htag. congruence. }
  unfold create_dataset. rewrite Htype. by rewrite (new_child_last (name col)) by done.
Qed.

Section ReadElements.
Context {BI : Builtins} (parse : node → result DataFrame).

Lemma comprehension_ext {A B} (f g : A → result B) l :
  (∀ x, x ∈ l → f x = g x) → comprehension f l = comprehension g l.
Proof.
  induction l as [|x l IH]; intros Hfg; simpl; [done|].
  rewrite (Hfg x) by left. rewrite IH; [done|].
  intros y Hy. apply Hfg. by right.
Qed.

(** The decoder asks a column group for [Element1] up to
    [Element<nrows>] and for nothing else. *)
Lemma read_elements_ext col_group col_group' nrows :
  (∀ i, (1 ≤ i ≤ nrows)%nat →
     getitem col_group' ("Element" +:+ pretty i) =
     getitem col_group ("Element" +:+ pretty i)) →
  read_elements parse col_group' nrows = read_elements parse col_group nrows.
Proof.
  intros Hsame. rewrite !read_elements_eq. apply comprehension_ext.
  intros i Hi. apply elem_of_seq in Hi. rewrite Hsame; [done | lia].
Qed.

Lemma comprehension_seq_lookup {B} (F : nat → result B) (es : list node)
    (g : node → result B) (i : nat) :
  (∀ j e, es !! j = Some e → F (i + j) = g e) →
  comprehension F (seq i (length es)) = comprehension g es.
Proof.
  revert i. induction es as [|e es IH]; intros i HF; simpl; [done|].
  rewrite <-(Nat.add_0_r i) at 1. rewrite (HF 0 e) by done.
  rewrite (IH (S i)); [done|].
  intros j e' Hj. rewrite <-(HF (S j) e') by done. f_equal. lia.
Qed.

Lemma read_elements_children a es rest :
  read_elements parse (Group a (element_children 1 es ++ rest)) (length es) =
  comprehension parse es.
Proof.
  rewrite read_elements_eq. apply comprehension_seq_lookup.
  intros j e Hj. rewrite getitem_Group, assoc_app, element_children_lookup, Hj.
  done.
Qed.
End ReadElements.

Lemma element_children_names i es :
  map fst (element_children i es) =
  map (λ j : nat, "Element" +:+ pretty j) (seq i (length es)).
Proof. revert i. induction es as [|e es IH]; intros i; simpl; [done|]. by rewrite IH. Qed.

Section SortedProperties.
Context {A : Type} (le : A → A → bool).
Hypothesis le_total : ∀ a b, le a b = true ∨ le b a = true.
Hypothesis le_trans : ∀ a b c, le a b = true → le b c = true → le a c = true.

Lemma insert_sorted_Permutation x l : Permutation (insert_sorted le x l) (x :: l).
Proof.
  induction l as [|y l IH]; simpl; [done|].
  destruct (le x y); [done|]. rewrite IH. apply perm_swap.
Qed.

Lemma sorted_Permutation l : Permutation (sorted le l) l.
Proof.
  induction l as [|x l IH]; simpl; [done|].
  rewrite insert_sorted_Permutation. by constructor.
Qed.

Lemma insert_sorted_StronglySorted x l :
  StronglySorted (λ a b, le a b = true) l →
  StronglySorted (λ a b, le a b = true) (insert_sorted le x l).
Proof.
  induction 1 as [|y l Hl IH Hy]; simpl.
  - repeat constructor.
  - destruct (le x y) eqn:Hxy.
    + constructor; [by constructor|].
      constructor; [done|]. eapply Forall_impl; [exact Hy|].
      intros z Hz. by eapply le_trans.
    + constructor; [done|].
      eapply Permutation_Forall; [symmetry; apply insert_sorted_Permutation|].
      constructor; [|done]. destruct (le_total x y); congruence.
Qed.

Lemma sorted_StronglySorted l : StronglySorted (λ a b, le a b = true) (sorted le l).
Proof.
  induction l as [|x l IH]; simpl; [constructor|].
  by apply insert_sorted_StronglySorted.
Qed.
End SortedProperties.

(** C9: a nested column of [n] rows is written as the children
    [Element1] ... [Element<n>] of the column's group, row [i] (counting
    from 0) under [Element<i+1>], next to the three metadata datasets
    and nothing else; the decoder reads [Element1] ... [Element<nrows>]
    in that order and so returns the rows in their order; [Element0] is
    not written, and whatever is stored under that name changes nothing
    in what the decoder reads. *)
Theorem nested_column_elements_one_based {BI : Builtins}
    (col : Series value) (es : list node) a ch :
  existsb isinstance_DataFrame (values col) = true →
  Forall2 (λ z e, write_df_any write_df (Group ∅ []) z = Ok e) (values col) es →
  name col ∉ map fst ch →
  (∃ col_group,
     write_df_column (Group a ch) col = Ok (Group a (ch ++ [(name col, col_group)])) ∧
     Permutation (keys col_group)
       (map (λ i : nat, "Element" +:+ pretty i) (seq 1 (length (values col)))
        ++ reserved_names) ∧
     (∀ (i : nat) e, es !! i = Some e →
        getitem col_group ("Element" +:+ pretty (S i)) = Ok e) ∧
     getitem col_group "Element0" = Raise (KeyError "Element0") ∧
     read_elements parse_bronhdf col_group (length (values col)) =
       comprehension parse_bronhdf es) ∧
  (∀ (col_group : node) (nrows : nat),
     read_elements parse_bronhdf col_group nrows =
       comprehension
         (λ i_row, e ← getitem col_group ("Element" +:+ pretty i_row); parse_bronhdf e)
         (seq 1 nrows) ∧
     ∀ col_group',
       (∀ k, k ≠ "Element0" → getitem col_group' k = getitem col_group k) →
       read_elements parse_bronhdf col_group' nrows =
       read_elements parse_bronhdf col_group nrows).
Proof.
  intros Hany Hes Hfresh. split.
  - eexists. split; [by apply write_nested_column|].
    pose proof (Forall2_length _ _ _ Hes) as Hlen.
    split; [|split; [|split]].
    + cbn [keys]. rewrite sorted_Permutation.
      by rewrite map_app, element_children_names, Hlen.
    + intros i e Hi. change (S i) with (1 + i). rewrite getitem_Group, assoc_app.
      by rewrite (element_children_lookup 1 es i), Hi.
    + rewrite getitem_Group, assoc_app.
      by rewrite element_children_Element0.
    + rewrite Hlen. apply read_elements_children.
  - intros col_group nrows. split; [apply read_elements_eq|].
    intros col_group' Hsame. apply read_elements_ext.
    intros i Hi. apply Hsame. intros Heq. apply (Element_inj i 0) in Heq. lia.
Qed.

(** ** Aggregate Codec: the order of the keys *)

Lemma StronglySorted_map {A B} (R : A → A → Prop) (R' : B → B → Prop) (f : A → B) l :
  (∀ x y, x ∈ l → y ∈ l → R x y → R' (f x) (f y)) →
  StronglySorted R l → StronglySorted R' (map f l).
Proof.
  intros HR Hl. induction Hl as [|x l Hl IH Hx]; simpl; constructor.
  - apply IH. intros y z Hy Hz. apply HR; by right.
  - apply Forall_forall. intros y Hy.
    apply list_elem_of_fmap in Hy as (z & -> & Hz).
    apply HR; [left | by right |]. rewrite Forall_forall in Hx.
    by apply Hx.
Qed.

Lemma ascii_compare_Lt_trans a b c :
  Ascii.compare a b = Lt → Ascii.compare b c ≠ Gt → Ascii.compare a c = Lt.
Proof.
  unfold Ascii.compare. rewrite !N.compare_lt_iff, N.compare_gt_iff. lia.
Qed.

Lemma string_compare_trans s1 : ∀ s2 s3,
  String.compare s1 s2 ≠ Gt → String.compare s2 s3 ≠ Gt → String.compare s1 s3 ≠ Gt.
Proof.
  induction s1 as [|c1 s1 IH]; intros [|c2 s2] [|c3 s3]; simpl; try done.
  destruct (Ascii.compare c1 c2) eqn:H12; [| |done].
  - apply Ascii.compare_eq_iff in H12 as ->.
    destruct (Ascii.compare c2 c3); [apply IH | done | done].
  - intros _ H23.
    assert (Ascii.compare c2 c3 ≠ Gt) as Hc by (destruct (Ascii.compare c2 c3); done).
    by rewrite (ascii_compare_Lt_trans _ _ _ H12 Hc).
Qed.

Lemma string_leb_trans a b c :
  String.leb a b = true → String.leb b c = true → String.leb a c = true.
Proof.
  unfold String.leb. intros H1 H2.
  pose proof (string_compare_trans a b c) as Ht.
  destruct (String.compare a b), (String.compare b c), (String.compare a c);
    try done; exfalso; by apply Ht.
Qed.

Lemma dict_setitem_fresh {V} k (v : V) d :
  k ∉ map fst d → dict_setitem k v d = d ++ [(k, v)].
Proof.
  induction d as [|[k' v'] d IH]; simpl; [done|].
  rewrite not_elem_of_cons. intros [Hne Hk].
  apply String.eqb_neq in Hne. by rewrite Hne, IH.
Qed.

Lemma for_each_dict_setitem {V} (F : string → result V) ks d0 d :
  for_each (λ gmws k, gmw ← F k; Ok (dict_setitem k gmw gmws)) ks d0 = Ok d →
  NoDup ks →
  (∀ k, k ∈ ks → k ∉ map fst d0) →
  map fst d = map fst d0 ++ ks ∧
  ∀ k v, (k, v) ∈ d → (k, v) ∈ d0 ∨ (k ∈ ks ∧ F k = Ok v).
Proof.
  revert d0. induction ks as [|k ks IH]; intros d0; simpl.
  - intros [= <-] _ _. rewrite app_nil_r. split; [done | by left].
  - intros Hr Hnd Hfresh. apply NoDup_cons in Hnd as [Hk Hnd].
    apply bind_Ok_inv in Hr as (d1 & H1 & Hr).
    apply bind_Ok_inv in H1 as (v & Hv & [= <-]).
    rewrite dict_setitem_fresh in Hr by (apply Hfresh; left).
    apply IH in Hr as [Hkeys Hin]; [|done|].
    + split.
      * rewrite Hkeys, map_app. simpl. by rewrite <-app_assoc.
      * intros k' v' Hd. apply Hin in Hd as [Hd|[Hd Hv']].
        -- apply elem_of_app in Hd as [Hd|Hd]; [by left|].
           apply list_elem_of_singleton in Hd as [= -> ->]. right. split; [left | done].
        -- right. split; [by right | done].
    + intros k' Hk'. rewrite map_app, not_elem_of_app. split.
      * apply Hfresh. by right.
      * simpl. rewrite not_elem_of_cons. split; [|apply not_elem_of_nil].
        intros ->. done.
Qed.

Section ReaderProperties.
Context {BI : Builtins}.

Lemma sorted_key_int_Some l :
  Forall (is_Some ∘ int_) l →
  ∃ ks, sorted_key_int l = Some ks ∧ Permutation ks l ∧ StronglySorted int_le ks.
Proof.
  intros Hall. unfold sorted_key_int.
  destruct (mapM_is_Some_2 (λ k, i ← int_ k; Some (i, k)) l) as [keyed Hkeyed].
  { eapply Forall_impl; [exact Hall|]. intros k [i Hi]. simpl in *.
    rewrite Hi. by eexists. }
  rewrite Hkeyed. simpl. eexists. split; [done|].
  pose proof (mapM_Some_1 _ _ _ Hkeyed) as H2.
  assert (Hsnd : map snd keyed = l).
  { clear -H2. induction H2 as [|k p l keyed Hp _ IH]; simpl; [done|].
    destruct (int_ k); simpl in Hp; [|done]. injection Hp as <-. by rewrite IH. }
  assert (Hint : Forall (λ p, int_ p.2 = Some p.1) keyed).
  { clear -H2. induction H2 as [|k p l keyed Hp _ IH]; constructor; [|done].
    destruct (int_ k) eqn:Hk; simpl in Hp; [|done]. by injection Hp as <-. }
  set (le := λ a b : Z * string, Z.leb a.1 b.1).
  assert (Hperm : Permutation (sorted le keyed) keyed) by apply sorted_Permutation.
  split.
  - rewrite <-Hsnd. by apply Permutation_map.
  - apply (StronglySorted_map (λ a b, le a b = true)).
    + intros p q Hp Hq Hle. rewrite Forall_forall in Hint. unfold int_le.
      rewrite (Hint p), (Hint q) by (by rewrite <-Hperm).
      by apply Z.leb_le.
    + apply sorted_StronglySorted.
      * intros a b. unfold le. rewrite !Z.leb_le. lia.
      * intros a b c. unfold le. rewrite !Z.leb_le. lia.
Qed.

Lemma sorted_key_int_None l :
  Exists (λ k, int_ k = None) l → sorted_key_int l = None.
Proof.
  intros Hex. unfold sorted_key_int. rewrite mapM_None_2; [done|].
  eapply Exists_impl; [exact Hex|]. intros k Hk. simpl. by rewrite Hk.
Qed.

(** C5: the children of the root are read in ascending order of the
    integers their keys denote when every key is an integer string,
    and in ascending lexicographic order as soon as one key is not;
    the mapping that is returned lists the keys, as they are in the
    file, in the order in which they were read. *)
Theorem gmw_keys_order (hdfgroup : node) :
  Permutation (sorted_gkeys hdfgroup) (keys hdfgroup) ∧
  ((∀ k, k ∈ keys hdfgroup → is_Some (int_ k)) →
   StronglySorted int_le (sorted_gkeys hdfgroup)) ∧
  ((∃ k, k ∈ keys hdfgroup ∧ int_ k = None) →
   sorted_gkeys hdfgroup = sorted String.leb (keys hdfgroup) ∧
   StronglySorted lex_le (sorted_gkeys hdfgroup)) ∧
  (∀ gmws,
     NoDup (keys hdfgroup) →
     read_bron2_to_gmws hdfgroup = Ok gmws →
     map fst gmws = sorted_gkeys hdfgroup ∧
     ∀ k gmw, (k, gmw) ∈ gmws →
       k ∈ keys hdfgroup ∧ getitem_with hdfgroup k read_gmw = Ok gmw).
Proof.
  assert (Hlex : StronglySorted lex_le (sorted String.leb (keys hdfgroup))).
  { apply sorted_StronglySorted; [apply String.leb_total | apply string_leb_trans]. }
  assert (Hcases :
    (Forall (is_Some ∘ int_) (keys hdfgroup) ∧
     ∃ ks, sorted_key_int (keys hdfgroup) = Some ks ∧
           Permutation ks (keys hdfgroup) ∧ StronglySorted int_le ks) ∨
    (Exists (λ k, int_ k = None) (keys hdfgroup) ∧
     sorted_key_int (keys hdfgroup) = None)).
  { destruct (decide (Forall (is_Some ∘ int_) (keys hdfgroup))) as [Hall|Hex].
    - left. split; [done|]. by apply sorted_key_int_Some.
    - right. apply not_Forall_Exists in Hex; [|apply _].
      assert (Hex' : Exists (λ k, int_ k = None) (keys hdfgroup)).
      { eapply Exists_impl; [exact Hex|]. intros k Hk. simpl in Hk.
        by apply eq_None_not_Some. }
      split; [done|]. by apply sorted_key_int_None. }
  assert (Hperm : Permutation (sorted_gkeys hdfgroup) (keys hdfgroup)).
  { unfold sorted_gkeys. destruct Hcases as [[_ (ks & -> & Hp & _)]|[_ ->]]; [done|].
    apply sorted_Permutation. }
  split; [done|]. split; [|split].
  - intros Hall. unfold sorted_gkeys.
    destruct Hcases as [[_ (ks & -> & _ & Hs)]|[Hex _]]; [done|].
    apply Exists_exists in Hex as (k & Hk & Hnone).
    destruct (Hall k Hk) as [i Hi]. congruence.
  - intros (k & Hk & Hnone). unfold sorted_gkeys.
    destruct Hcases as [[Hall _]|[_ ->]]; [|done].
    rewrite Forall_forall in Hall. destruct (Hall k Hk) as [i Hi]. congruence.
  - intros gmws Hnd Hread. unfold read_bron2_to_gmws in Hread.
    apply bind_Ok_inv in Hread as (_ & _ & Hread).
    apply for_each_dict_setitem in Hread as [Hkeys Hin].
    + split; [done|]. intros k gmw Hk.
      apply Hin in Hk as [Hk|[Hk Hv]]; [by apply elem_of_nil in Hk|].
      split; [by rewrite <-Hperm | done].
    + by rewrite Hperm.
    + intros k _. apply not_elem_of_nil.
Qed.
End ReaderProperties.

(** ** Round trip *)

Lemma table_children_eq df :
  table_children df =
  metadata_children df
  ++ map (λ col, (name col, column_node table_children col)) (columns df).
Proof. by destruct df. Qed.

(** The elements a dtype holds are primitive, and h5py reads them as
    they are stored. *)
Lemma holds_VScalar dt z :
  holds dt z = true → ∃ s, z = VScalar s ∧ h5_read s = s.
Proof.
  destruct dt, z as [[]| | |]; simpl; try done; intros _; by eexists.
Qed.

Lemma holds_scalars dt vs :
  forallb (holds dt) vs = true →
  existsb isinstance_DataFrame vs = false ∧
  map VScalar (map h5_read (omap as_scalar vs)) = vs ∧
  length (omap as_scalar vs) = length vs.
Proof.
  induction vs as [|z vs IH]; [done|]. cbn [forallb]. rewrite andb_true_iff.
  intros [Hz Hvs]. destruct (IH Hvs) as (IH1 & IH2 & IH3).
  apply holds_VScalar in Hz as (x & -> & Hx). simpl.
  split; [done|]. split; [|f_equal; exact IH3]. rewrite Hx. f_equal. exact IH2.
Qed.

Lemma holds_object_bytes vs :
  forallb (holds object_) vs = true → forallb is_python_bytes vs = true.
Proof.
  induction vs as [|z vs IH]; [done|]. cbn [forallb]. rewrite !andb_true_iff.
  intros [Hz Hvs]. split; [|by apply IH]. by destruct z as [[]| | |].
Qed.

(** The Type Tagger and h5py accept the primitive columns of
    well-formed tables. *)
Lemma infer_scalar_column col :
  dtype_ col ≠ str_ ∧ dtype_ col ≠ bytes_ 0 →
  forallb (holds (dtype_ col)) (values col) = true →
  dtype_ col ≠ object_ ∨ values col ≠ [] →
  index col = RangeIndex (length (values col)) →
  infer_column_matlab_type col = Ok (column_tag col) ∧ column_tag col ≠ "table" ∧
  has_hdf5_type (dtype_ col) (values col) = true.
Proof.
  intros [Hstr Hflex] Hholds Hne Hidx.
  pose proof (holds_scalars _ _ Hholds) as (Hany & _ & _).
  assert (Hok : ∃ tag, infer_column_matlab_type col = Ok tag).
  { destruct (decide (dtype_ col = object_)) as [Hobj|Hobj].
    - destruct Hne as [?|Hne]; [done|]. exists (dtype_tag (bytes_ 0)).
      apply infer_object_one_dtype; [done | done | | done].
      apply col_dtypes_all; [done|]. intros z Hz.
      rewrite Hobj in Hholds. apply holds_object_bytes in Hholds.
      rewrite forallb_forall in Hholds. apply list_elem_of_In, Hholds in Hz.
      by destruct z as [[]| | |].
    - unfold infer_column_matlab_type. rewrite Hany.
      rewrite bool_decide_true by done. simpl. eauto. }
  destruct Hok as [tag Htag]. unfold column_tag. rewrite Htag. split; [done|].
  split; [intros ->; apply infer_table_iff in Htag; congruence|].
  destruct (dtype_ col) eqn:Hdt; try done.
  unfold has_hdf5_type. destruct Hne as [?|Hne]; [done|].
  destruct (values col) as [|z vs] eqn:Hv; [done|]. rewrite <-Hv in *.
  by rewrite (holds_object_bytes _ Hholds).
Qed.

Lemma write_rows vs :
  Forall (on_row encodes) vs →
  forallb (wf_row wf_table) vs = true →
  Forall2 (λ z e, write_df_any write_df (Group ∅ []) z = Ok e)
          vs (map (row_node table_children) vs).
Proof.
  induction 1 as [|z vs Hz _ IH]; simpl; [constructor|].
  rewrite andb_true_iff. intros [Hwf Hall]. constructor; [|by apply IH].
  destruct z as [s|s| |t]; simpl in *; try done.
  by rewrite (Hz Hwf ∅).
Qed.

(** What a well-formed column is, by cases. *)
Lemma wf_column_inv nrows col :
  wf_column wf_table nrows col = true →
  length (values col) = nrows ∧ (name col ∉ reserved_names) ∧
  valid_name (name col) = true ∧ index col = RangeIndex (length (values col)) ∧
  ((existsb isinstance_DataFrame (values col) = true ∧ dtype_ col = object_ ∧
    forallb (wf_row wf_table) (values col) = true) ∨
   (existsb isinstance_DataFrame (values col) = false ∧
    (dtype_ col ≠ str_ ∧ dtype_ col ≠ bytes_ 0) ∧
    forallb (holds (dtype_ col)) (values col) = true ∧
    (dtype_ col ≠ object_ ∨ values col ≠ []))).
Proof.
  unfold wf_column. rewrite !andb_true_iff, !bool_decide_eq_true.
  intros [[[[Hlen Hres] Hvalid] Hidx] Hwf]. rewrite Hlen.
  repeat (split; [done|]).
  destruct (existsb isinstance_DataFrame (values col)).
  - left. apply andb_true_iff in Hwf as [Hobj Hwf]. apply bool_decide_eq_true in Hobj.
    done.
  - right. rewrite !andb_true_iff, orb_true_iff, !bool_decide_eq_true in Hwf.
    destruct Hwf as [[Hdt Hholds] Hne]. done.
Qed.

Lemma wf_column_name nrows col :
  wf_column wf_table nrows col = true →
  length (values col) = nrows ∧ (name col ∉ reserved_names).
Proof. intros Hwf. apply wf_column_inv in Hwf. tauto. Qed.

Lemma write_column_layout nrows col a ch :
  wf_column wf_table nrows col = true →
  on_rows encodes col →
  name col ∉ map fst ch →
  write_df_column (Group a ch) col =
    Ok (Group a (ch ++ [(name col, column_node table_children col)])).
Proof.
  intros Hwf Hrows Hfresh. unfold column_node.
  apply wf_column_inv in Hwf
    as (_ & _ & _ & Hidx & [(Hany & _ & Hwf)|(Hany & Hdt & Hholds & Hne)]); rewrite Hany.
  - apply write_nested_column; [done | by apply write_rows | done].
  - destruct (infer_scalar_column col Hdt Hholds Hne Hidx) as (Htag & _ & Htype).
    by apply write_scalar_column.
Qed.

Lemma for_each_write_columns (enc : Series value → node) cols a ch :
  (∀ col a ch, col ∈ cols → name col ∉ map fst ch →
     write_df_column (Group a ch) col = Ok (Group a (ch ++ [(name col, enc col)]))) →
  NoDup (map name cols) →
  (∀ col, col ∈ cols → name col ∉ map fst ch) →
  for_each write_df_column cols (Group a ch) =
    Ok (Group a (ch ++ map (λ col, (name col, enc col)) cols)).
Proof.
  revert ch. induction cols as [|col cols IH]; intros ch Henc Hnd Hfresh; simpl.
  - by rewrite app_nil_r.
  - apply NoDup_cons in Hnd as [Hcol Hnd].
    rewrite Henc by (left || (apply Hfresh; left)). rewrite bind_Ok.
    rewrite IH; [by rewrite <-app_assoc | | done |].
    + intros c a' ch' Hc. apply Henc. by right.
    + intros c Hc. rewrite map_app, not_elem_of_app. split; [apply Hfresh; by right|].
      simpl. rewrite not_elem_of_cons. split; [|apply not_elem_of_nil].
      intros Heq. apply Hcol. rewrite <-Heq. by apply (list_elem_of_fmap_2 name).
Qed.

Lemma wf_table_inv cols vd vu :
  wf_table (mkDataFrame cols vd vu) = true →
  NoDup (map name cols) ∧ map name cols ≠ ["Var1"] ∧
  existsb (λ col, negb (existsb isinstance_DataFrame (values col))) cols = true ∧
  (∀ col, col ∈ cols → wf_column wf_table (nrows_of cols) col = true) ∧
  metadata_ok vd = true ∧ metadata_ok vu = true.
Proof.
  simpl. rewrite !andb_true_iff, negb_true_iff, bool_decide_eq_true, bool_decide_eq_false.
  intros [[[[[Hnd Hvar] Hex] Hall] Hvd] Hvu]. repeat split; try done.
  intros col Hcol. rewrite forallb_forall in Hall. by apply Hall, list_elem_of_In.
Qed.

Lemma write_df_layout df : encodes df.
Proof.
  induction df as [cols vd vu IH] using DataFrame_nested_ind.
  intros Hwf a. apply wf_table_inv in Hwf as (Hnd & _ & _ & Hcols & _).
  rewrite write_df_eq, write_df_metadata_fresh by (intros; apply not_elem_of_nil).
  rewrite bind_Ok, table_children_eq. simpl app at 1.
  apply for_each_write_columns; [|done|].
  - intros col a' ch' Hcol Hfresh.
    apply (write_column_layout (nrows_of cols)); [by apply Hcols | | done].
    rewrite Forall_forall in IH. by apply IH.
  - intros col Hcol Hin. apply Hcols, wf_column_name in Hcol as [_ Hres].
    apply Hres. simpl in Hin. exact Hin.
Qed.

Lemma assoc_columns (enc : Series value → node) cols col :
  NoDup (map name cols) → col ∈ cols →
  assoc (name col) (map (λ col, (name col, enc col)) cols) = Some (enc col).
Proof.
  induction cols as [|c cols IH]; intros Hnd Hcol.
  - by apply elem_of_nil in Hcol.
  - rewrite map_cons in Hnd. apply NoDup_cons in Hnd as [Hc Hnd].
    rewrite map_cons, assoc_cons.
    apply elem_of_cons in Hcol as [->|Hcol]; [by rewrite String.eqb_refl|].
    destruct (String.eqb_spec (name col) (name c)) as [Heq|_]; [|by apply IH].
    exfalso. apply Hc. rewrite <-Heq. by apply (list_elem_of_fmap_2 name).
Qed.

Lemma getitem_table_column a df col :
  NoDup (map name (columns df)) → col ∈ columns df → name col ∉ reserved_names →
  getitem (Group a (table_children df)) (name col) =
    Ok (column_node table_children col).
Proof.
  intros Hnd Hcol Hres. rewrite getitem_Group, table_children_eq, assoc_app.
  rewrite (proj2 (assoc_None (name col) (metadata_children df))) by exact Hres.
  by rewrite assoc_columns.
Qed.

Section RoundTrip.
Context {BI : Builtins}.

Lemma astype_bytes_SBytes l : map astype_bytes (map SBytes l) = l.
Proof. induction l as [|x l IH]; simpl; [done|]. by rewrite IH. Qed.

Lemma read_metadata_array a rest metaname (m : option (list string)) ncols ch1 :
  assoc metaname ch1 = None →
  read_metadata
    (Group a (ch1 ++ (metaname, cellstr_dataset (metadata_array m)) :: rest))
    metaname ncols =
  Ok (default_metadata ncols m).
Proof.
  intros Hch1.
  destruct m as [[|x l]|].
  - by apply (read_metadata_empty _ _ _ {["matlab_type" := AttrBytes "cellstr"]} float64);
      rewrite getitem_Group, assoc_app, Hch1, assoc_cons, String.eqb_refl.
  - rewrite (read_metadata_stored _ _ _ {["matlab_type" := AttrBytes "cellstr"]}
               (bytes_ (itemsize_of (x :: l))) (map SBytes (x :: l))).
    + by rewrite astype_bytes_SBytes.
    + by rewrite getitem_Group, assoc_app, Hch1, assoc_cons, String.eqb_refl.
    + done.
  - by apply (read_metadata_empty _ _ _ {["matlab_type" := AttrBytes "cellstr"]} (bytes_ 1));
      rewrite getitem_Group, assoc_app, Hch1, assoc_cons, String.eqb_refl.
Qed.

Lemma parse_rows vs :
  Forall (on_row decodes) vs →
  forallb (wf_row wf_table) vs = true →
  ∃ ts, comprehension parse_bronhdf (map (row_node table_children) vs) = Ok ts ∧
        map VTable ts = map (with_defaults_value with_defaults) vs.
Proof.
  induction 1 as [|z vs Hz _ IH]; intros Hall; [by exists []|].
  cbn [forallb] in Hall. apply andb_true_iff in Hall as [Hwf Hall].
  destruct (IH Hall) as (ts & IH1 & IH2).
  destruct z as [x|x| |t]; try done. cbn [wf_row on_row] in *.
  exists (with_defaults t :: ts).
  cbn [map row_node comprehension with_defaults_value]. unfold table_node.
  rewrite (Hz Hwf), bind_Ok, IH1, bind_Ok. split; [done|]. by rewrite IH2.
Qed.

Lemma with_defaults_scalars dt vs :
  forallb (holds dt) vs = true → map (with_defaults_value with_defaults) vs = vs.
Proof.
  induction vs as [|z vs IH]; [done|]. cbn [forallb map]. rewrite andb_true_iff.
  intros [Hz Hvs]. rewrite IH by done. apply holds_VScalar in Hz as (x & -> & _). done.
Qed.

Lemma read_column_layout hdfgroup nrows col :
  wf_column wf_table nrows col = true →
  on_rows decodes col →
  getitem hdfgroup (name col) = Ok (column_node table_children col) →
  read_column hdfgroup nrows (SBytes (name col)) =
    Ok (with_defaults_column with_defaults col).
Proof.
  intros Hwf Hrows Hget. unfold column_node in Hget.
  apply wf_column_inv in Hwf
    as (Hlen & _ & _ & Hidx & [(Hany & Hobj & Hwf)|(Hany & Hdt & Hholds & Hne)]);
    rewrite Hany in Hget.
  - rewrite read_column_eq. simpl key_of. rewrite bind_Ok, Hget, bind_Ok.
    unfold attrs_getitem. simpl attrs_of. rewrite lookup_singleton_eq, bind_Ok.
    rewrite (not_table_tag_string _ "table") by (by left). rewrite bind_Ok.
    change (negb (String.eqb "table" "table")) with false. cbv iota.
    destruct (parse_rows _ Hrows Hwf) as (ts & Hparse & Hmap).
    rewrite <-Hlen, <-(length_map (row_node table_children)).
    rewrite read_elements_children, Hparse, bind_Ok.
    unfold with_defaults_column, mkSeries. rewrite Hmap, Hobj, Hidx.
    by rewrite !length_map.
  - destruct (infer_scalar_column col Hdt Hholds Hne Hidx) as (_ & Htag & _).
    rewrite read_column_eq. simpl key_of. rewrite bind_Ok, Hget, bind_Ok.
    unfold attrs_getitem. simpl attrs_of. rewrite lookup_singleton_eq, bind_Ok.
    rewrite (not_table_tag_string _ (column_tag col)) by (by left). rewrite bind_Ok.
    apply String.eqb_neq in Htag. rewrite Htag. cbn [negb read_all]. rewrite bind_Ok.
    cbn [fst snd].
    destruct (holds_scalars _ _ Hholds) as (_ & Hvals & Hlen').
    unfold with_defaults_column, mkSeries.
    rewrite Hvals, (with_defaults_scalars _ _ Hholds), Hidx.
    f_equal. f_equal. destruct (dtype_ col); try done. by destruct Hdt.
Qed.

Lemma find_nrows_layout hdfgroup all cols nrows :
  (∀ col, col ∈ cols →
     getitem hdfgroup (name col) = Ok (column_node table_children col)) →
  (∀ col, col ∈ cols → wf_column wf_table nrows col = true) →
  existsb (λ col, negb (existsb isinstance_DataFrame (values col))) cols = true →
  find_nrows hdfgroup all (map SBytes (map name cols)) = Ok nrows.
Proof.
  induction cols as [|col cols IH]; intros Hget Hwf Hex; [done|].
  cbn [map find_nrows key_of]. rewrite bind_Ok, Hget by left. rewrite bind_Ok.
  cbn [existsb] in Hex. unfold column_node.
  destruct (wf_column_inv _ _ (Hwf col ltac:(left)))
    as (Hlen & _ & _ & _ & [(Hany & _ & _)|(Hany & _ & Hholds & _)]); rewrite Hany.
  - rewrite Hany in Hex. apply IH; [| |done].
    + intros c Hc. apply Hget. by right.
    + intros c Hc. apply Hwf. by right.
  - f_equal. rewrite <-Hlen. by apply holds_scalars in Hholds as (_ & _ & ->).
Qed.

Lemma setitem_same_length acc col nrows :
  Forall (λ c : Series value, length (values c) = nrows) acc →
  length (values col) = nrows →
  setitem acc col = Ok (acc ++ [col]).
Proof.
  intros Hacc Hcol. unfold setitem.
  destruct acc as [|c acc]; simpl index_length.
  - case_bool_decide; [done|]. rewrite bool_decide_true; [done | lia].
  - apply Forall_cons in Hacc as [Hc _].
    rewrite bool_decide_false by lia. by rewrite bool_decide_true by lia.
Qed.

Lemma read_columns_layout hdfgroup nrows (wd : Series value → Series value) cols acc :
  (∀ col, col ∈ cols → read_column hdfgroup nrows (SBytes (name col)) = Ok (wd col)) →
  (∀ col, col ∈ cols → length (values (wd col)) = nrows) →
  Forall (λ c : Series value, length (values c) = nrows) acc →
  for_each
    (λ df colname, col ← read_column hdfgroup nrows colname; setitem df col)
    (map SBytes (map name cols)) acc =
  Ok (acc ++ map wd cols).
Proof.
  revert acc. induction cols as [|col cols IH]; intros acc Hread Hlen Hacc.
  - simpl. by rewrite app_nil_r.
  - cbn [map for_each]. rewrite Hread by left. rewrite bind_Ok.
    rewrite (setitem_same_length acc (wd col) nrows) by (done || (apply Hlen; left)).
    rewrite bind_Ok, IH.
    + by rewrite <-app_assoc.
    + intros c Hc. apply Hread. by right.
    + intros c Hc. apply Hlen. by right.
    + apply Forall_app. split; [done|]. constructor; [|done]. apply Hlen. left.
Qed.

Lemma is_empty_marker_names (names : list string) :
  names ≠ [] → names ≠ ["Var1"] → is_empty_marker (map SBytes names) = false.
Proof.
  destruct names as [|n [|n' names]]; simpl; try done.
  intros _ Hvar. apply String.eqb_neq. congruence.
Qed.

Lemma parse_layout df : decodes df.
Proof.
  induction df as [cols vd vu IH] using DataFrame_nested_ind.
  intros Hwf a. apply wf_table_inv in Hwf as (Hnd & Hvar & Hex & Hcols & _).
  assert (Hne : map name cols ≠ []) by (by destruct cols).
  assert (Hget : ∀ col, col ∈ cols →
            getitem (Group a (table_children (mkDataFrame cols vd vu))) (name col) =
              Ok (column_node table_children col)).
  { intros col Hcol. apply getitem_table_column; [done | done |].
    by apply Hcols, wf_column_name in Hcol as [_ ?]. }
  remember (Group a (table_children (mkDataFrame cols vd vu))) as G eqn:HG.
  assert (Hnames : getitem G "VariableNames" =
            Ok (cellstr_dataset (asarray_bytes (map name cols)))).
  { subst G. by rewrite getitem_Group, table_children_eq. }
  rewrite (parse_bronhdf_stored G _ _ _ Hnames).
  cbn [snd asarray_bytes]. rewrite (is_empty_marker_names _ Hne Hvar).
  rewrite !length_map.
  assert (Hvd : read_metadata G "VariableDescriptions" (length cols) =
            Ok (default_metadata (length cols) vd)).
  { subst G. rewrite table_children_eq.
    apply (read_metadata_array a _ "VariableDescriptions" vd (length cols)
             [("VariableNames", _)]). done. }
  assert (Hvu : read_metadata G "VariableUnits" (length cols) =
            Ok (default_metadata (length cols) vu)).
  { subst G. rewrite table_children_eq.
    apply (read_metadata_array a _ "VariableUnits" vu (length cols)
             [("VariableNames", _); ("VariableDescriptions", _)]). done. }
  rewrite Hvd, Hvu, !bind_Ok.
  rewrite (find_nrows_layout G _ cols (nrows_of cols)); [|done|done|done].
  rewrite bind_Ok.
  rewrite (read_columns_layout G (nrows_of cols)
             (with_defaults_column with_defaults) cols []); [done| | |done].
  - intros col Hcol. apply read_column_layout; [by apply Hcols | | by apply Hget].
    rewrite Forall_forall in IH. by apply IH.
  - intros col Hcol. simpl. rewrite length_map.
    by apply Hcols, wf_column_name in Hcol as [? _].
Qed.
End RoundTrip.

Lemma with_defaults_rows vs :
  Forall (on_row (λ df, metadata_set df = true → with_defaults df = df)) vs →
  forallb (λ z, match z with VTable t => metadata_set t | _ => true end) vs
    = true →
  map (with_defaults_value with_defaults) vs = vs.
Proof.
  induction 1 as [|z vs Hz _ IH]; [done|]. cbn [map forallb].
  rewrite andb_true_iff. intros [Hz' Hvs]. f_equal; [|by apply IH].
  destruct z as [x|x| |t]; try done. cbn [with_defaults_value on_row] in *.
  f_equal. by apply Hz.
Qed.

Lemma with_defaults_id df : metadata_set df = true → with_defaults df = df.
Proof.
  induction df as [cols vd vu IH] using DataFrame_nested_ind.
  cbn [metadata_set with_defaults]. rewrite !andb_true_iff, !bool_decide_eq_true.
  intros [[[Hvd1 Hvd2] [Hvu1 Hvu2]] Hcols]. f_equal.
  - rewrite forallb_forall in Hcols.
    induction IH as [|col cols Hcol _ IHcols]; [done|]. cbn [map]. f_equal.
    + destruct col as [n dt vs ix]. unfold with_defaults_column.
      cbn [name dtype_ values index].
      f_equal. apply with_defaults_rows; [exact Hcol|].
      apply (Hcols (mkSeriesIndexed n dt vs ix)). by left.
    + apply IHcols. intros c Hc. apply Hcols. by right.
  - destruct vd as [[|x l]|]; done.
  - destruct vu as [[|x l]|]; done.
Qed.



(** What [wf_table] asks beyond unique names and homogeneous columns is
    needed: an object column of numbers has no HDF5 type, a column
    named like a metadata dataset cannot be written, an object column
    without rows cannot be tagged, the single column [Var1] is read as
    the empty table, and metadata that was never set comes back as
    empty byte strings. *)
Example write_object_column_of_numbers_raises :
  write_df (Group ∅ [])
    (mkDataFrame [mkSeries "n" object_ [VScalar (SInt 1); VScalar (SInt 2)]] None None) =
  Raise (TypeError "dtype has no native HDF5 equivalent" "object").
Proof. vm_compute. reflexivity. Qed.

Example write_reserved_name_raises :
  write_df (Group ∅ [])
    (mkDataFrame [mkSeries "VariableUnits" int64 [VScalar (SInt 1)]] None None) =
  Raise (ValueError "name already exists" "VariableUnits").
Proof. vm_compute. reflexivity. Qed.

Example write_empty_object_column_raises :
  write_df (Group ∅ []) (mkDataFrame [mkSeries "code" object_ []] None None) =
  Raise (ValueError "Unable to infer matlab_type of column" "code").
Proof. vm_compute. reflexivity. Qed.

Example Var1_column_read_as_empty_table :
  (g ← write_df (Group ∅ [])
         (mkDataFrame [mkSeries "Var1" int64 [VScalar (SInt 1); VScalar (SInt 2)]]
            (Some ["level"]) (Some ["m"]));
   parse_bronhdf (BI := ascii_builtins) g) = Ok empty_df.
Proof. vm_compute. reflexivity. Qed.

Example absent_metadata_read_as_empty_strings :
  (g ← write_df (Group ∅ [])
         (mkDataFrame [mkSeries "tube" int64 [VScalar (SInt 1)]] None None);
   parse_bronhdf (BI := ascii_builtins) g) =
  Ok (mkDataFrame [mkSeries "tube" int64 [VScalar (SInt 1)]] (Some [""]) (Some [""])).
Proof. vm_compute. reflexivity. Qed.


(** ** The theorems at concrete tables and files *)


Lemma empty_marker_decodes_empty_witness :
  parse_bronhdf (BI := ascii_builtins) var1_node = Ok empty_df ∧
  parse_bronhdf (BI := ascii_builtins)
    (Group ∅ [("VariableNames", Dataset ∅ float64 [])]) = Ok empty_df.
Proof.
  split.
  - apply (empty_marker_decodes_empty (BI := ascii_builtins)
             var1_node ∅ object_ [SBytes "Var1"]); [reflexivity | by right].
  - apply (empty_marker_decodes_empty (BI := ascii_builtins)
             (Group ∅ [("VariableNames", Dataset ∅ float64 [])]) ∅ float64 []);
      [reflexivity | by left].
Defined.


(** A tag that is an array of two numbers: the comparison with
    [b"table"] has no truth value, and the column is not read. *)
Example array_tag_raises :
  read_column (BI := ascii_builtins)
    (Group ∅ [("tube", Dataset {["matlab_type" := AttrInts [2; 0]%Z]} int64 [SInt 1])])
    1 (SBytes "tube") =
  Raise (ValueError "The truth value of an array with more than one element is ambiguous"
                    "matlab_type").
Proof. vm_compute. reflexivity. Qed.

Lemma empty_metadata_synthesized_witness :
  ∃ df, parse_bronhdf (BI := ascii_builtins) misaligned_node = Ok df ∧
        length (columns df) = 2 ∧
        VariableDescriptions df = Some [""; ""] ∧
        VariableUnits df = Some ["-"; "m"; "s"].
Proof.
  destruct (parse_bronhdf (BI := ascii_builtins) misaligned_node) as [df|e] eqn:Hparse;
    [|vm_compute in Hparse; discriminate Hparse].
  destruct (empty_metadata_synthesized (BI := ascii_builtins) misaligned_node ∅ object_
              [SBytes "tube"; SBytes "level"] df ∅ (bytes_ 1) []
              ∅ (bytes_ 1) [SBytes "-"; SBytes "m"; SBytes "s"]
              eq_refl eq_refl eq_refl eq_refl Hparse)
    as (Hlen & Hvd & _ & _ & Hvu & _).
  exists df. split; [reflexivity|]. split; [exact Hlen|]. split.
  - rewrite (Hvd eq_refl). by rewrite Hlen.
  - by rewrite Hvu.
Defined.

Lemma row_count_from_first_dataset_witness :
  find_nrows (BI := ascii_builtins) example_node
    [SBytes "filters"; SBytes "tube"] [SBytes "filters"; SBytes "tube"] = Ok 2 ∧
  parse_bronhdf (BI := ascii_builtins) nested_only_node =
    Raise (Exception_ "Bad Bron datamodel" ["filters"; "history"]).
Proof.
  split.
  - destruct (row_count_from_first_dataset (BI := ascii_builtins) example_node ∅ object_
                [SBytes "filters"; SBytes "tube"] [""; ""] [""; ""]
                eq_refl eq_refl eq_refl eq_refl) as [Hfirst _].
    apply (Hfirst [SBytes "filters"] (SBytes "tube") [] 2 eq_refl).
    + constructor; [|constructor]. by eexists "filters", _, _.
    + by eexists "tube", _, _, _.
  - destruct (row_count_from_first_dataset (BI := ascii_builtins) nested_only_node ∅ object_
                [SBytes "filters"; SBytes "history"] [""; ""] [""; ""]
                eq_refl eq_refl eq_refl eq_refl) as [_ Hnone].
    apply Hnone. repeat constructor.
    + by eexists "filters", _, _.
    + by eexists "history", _, _.
Defined.

Lemma nested_column_elements_one_based_witness :
  let col := mkSeries "filters" object_
               [VTable (example_filter 5); VTable (example_filter 6)] in
  ∃ col_group,
    write_df_column (Group ∅ []) col = Ok (Group ∅ [("filters", col_group)]) ∧
    Permutation (keys col_group)
      ["Element1"; "Element2"; "VariableNames"; "VariableDescriptions"; "VariableUnits"] ∧
    getitem col_group "Element0" = Raise (KeyError "Element0") ∧
    read_elements (parse_bronhdf (BI := ascii_builtins)) col_group 2 =
      Ok [with_defaults (example_filter 5); with_defaults (example_filter 6)].
Proof.
  intros col.
  assert (Hrows : Forall2 (λ z e, write_df_any write_df (Group ∅ []) z = Ok e)
                    (values col) [example_filter_node 5; example_filter_node 6]).
  { repeat constructor; apply (write_df_layout _ eq_refl ∅). }
  destruct (nested_column_elements_one_based (BI := ascii_builtins) col _ ∅ []
              eq_refl Hrows (not_elem_of_nil _))
    as [(col_group & Hwrite & Hkeys & _ & Hzero & Hread) _].
  exists col_group. split; [exact Hwrite|]. split; [exact Hkeys|].
  split; [exact Hzero|]. etrans; [exact Hread|]. vm_compute. reflexivity.
Defined.

Lemma gmw_keys_order_witness :
  (StronglySorted (int_le (BI := ascii_builtins))
     (sorted_gkeys (BI := ascii_builtins) (example_root "10" "2" "1")) ∧
   ∃ gmws, read_bron2_to_gmws (BI := ascii_builtins) (example_root "10" "2" "1") = Ok gmws ∧
           map fst gmws = ["1"; "2"; "10"]) ∧
  (StronglySorted lex_le
     (sorted_gkeys (BI := ascii_builtins) (example_root "10" "2" "b")) ∧
   ∃ gmws, read_bron2_to_gmws (BI := ascii_builtins) (example_root "10" "2" "b") = Ok gmws ∧
           map fst gmws = ["10"; "2"; "b"]).
Proof.
  split.
  - destruct (gmw_keys_order (BI := ascii_builtins) (example_root "10" "2" "1"))
      as (_ & Hint & _ & Hread).
    split.
    + apply Hint. intros k Hk. vm_compute in Hk.
      repeat (apply elem_of_cons in Hk as [->|Hk]; [by eexists|]).
      by apply elem_of_nil in Hk.
    + destruct (read_bron2_to_gmws (BI := ascii_builtins) (example_root "10" "2" "1"))
        as [gmws|e] eqn:Hr; [|vm_compute in Hr; discriminate Hr].
      exists gmws. split; [reflexivity|].
      destruct (Hread gmws) as [-> _]; [|reflexivity|reflexivity].
      apply (bool_decide_unpack _). reflexivity.
  - destruct (gmw_keys_order (BI := ascii_builtins) (example_root "10" "2" "b"))
      as (_ & _ & Hlex & Hread).
    split.
    + apply Hlex. exists "b". split; [|reflexivity].
      apply (bool_decide_unpack _). reflexivity.
    + destruct (read_bron2_to_gmws (BI := ascii_builtins) (example_root "10" "2" "b"))
        as [gmws|e] eqn:Hr; [|vm_compute in Hr; discriminate Hr].
      exists gmws. split; [reflexivity|].
      destruct (Hread gmws) as [-> _]; [|reflexivity|reflexivity].
      apply (bool_decide_unpack _). reflexivity.
Defined.

(** Keys that denote the same integer are read in the order in which
    the group lists them, which is the order of their names. *)
Example equal_integers_in_name_order :
  sorted_gkeys (BI := ascii_builtins)
    (Group ∅ [("1", Group ∅ []); ("01", Group ∅ []); ("10", Group ∅ []);
              ("2", Group ∅ [])]) =
  ["01"; "1"; "2"; "10"].
Proof. vm_compute. reflexivity. Qed.

(** A collection of one well, written and read back: the nested rows of
    each table come back in their order. *)
Example collection_roundtrip :
  (g ← write_gmws_to_bron2 (Group ∅ [])
         [("1", mkGMW example_table example_table example_table)];
   read_bron2_to_gmws (BI := ascii_builtins) g) =
  Ok [("1", mkGMW (with_defaults example_table) (with_defaults example_table)
                  (with_defaults example_table))].
Proof. vm_compute. reflexivity. Qed.

(** Two levels of nesting: the rows of the inner nested columns come
    back in their order. *)
Example nested_two_levels_roundtrip :
  let well (z : Z) :=
    mkDataFrame
      [mkSeries "well" int64 [VScalar (SInt z)];
       mkSeries "tubes" object_ [VTable example_table]]
      (Some ["well number"; "tubes of the well"]) (Some ["-"; "-"]) in
  let T :=
    mkDataFrame
      [mkSeries "id" int64 [VScalar (SInt 1); VScalar (SInt 2)];
       mkSeries "wells" object_ [VTable (well 7%Z); VTable (well 8%Z)]]
      (Some ["id"; "wells"]) (Some ["-"; "-"]) in
  wf_table T = true ∧
  (g ← write_df (Group ∅ []) T; parse_bronhdf (BI := ascii_builtins) g) =
    Ok (with_defaults T).
Proof. vm_compute. split; reflexivity. Qed.

(** * Further properties of the codec *)

(** ** Type Tagger: when it fails *)



(** ** Empty tables *)

(** X2: A table without columns, whatever its metadata, is written into an
    empty group without error and is read back as the empty table. *)
Theorem empty_table_canonical {BI : Builtins} (a : gmap string attr)
    (vd vu : option (list string)) :
  ∃ g, write_df (Group a []) (mkDataFrame [] vd vu) = Ok g ∧
       parse_bronhdf g = Ok empty_df.
Proof.
  eexists. split.
  - rewrite write_df_eq, write_df_metadata_fresh by (intros; apply not_elem_of_nil).
    reflexivity.
  - by rewrite (parse_bronhdf_stored _ {["matlab_type" := AttrBytes "cellstr"]} float64 []).
Qed.

(** ** Table Encoder: what a write that succeeds has done *)

Lemma new_child_Ok_inv k c body n n' :
  (g ← create_child k c n; on_child k body g) = Ok n' →
  ∃ a ch c', n = Group a ch ∧ (k ∉ map fst ch) ∧ body c = Ok c' ∧
             n' = Group a (ch ++ [(k, c')]).
Proof.
  destruct n as [a dt d|a ch]; [done|].
  destruct (decide (k ∈ map fst ch)) as [Hin|Hfresh].
  - by rewrite (create_child_taken _ _ _ _ Hin).
  - rewrite (new_child_last _ _ _ _ _ Hfresh). intros Hr.
    apply bind_Ok_inv in Hr as (c' & Hc' & [= <-]). by exists a, ch, c'.
Qed.

Lemma write_df_metadata_Dataset a dt d df :
  write_df_metadata (Dataset a dt d) df = Raise (AttributeError "create").
Proof. by rewrite write_df_metadata_eq. Qed.

(** The first of the three metadata names that is taken stops
    [write_df_metadata]. *)
Lemma write_df_metadata_taken a ch df :
  (∃ k, k ∈ reserved_names ∧ k ∈ map fst ch) →
  ∃ k, k ∈ reserved_names ∧ k ∈ map fst ch ∧
       write_df_metadata (Group a ch) df = Raise (ValueError "name already exists" k).
Proof.
  intros (k0 & Hres & Hin).
  rewrite write_df_metadata_eq. cbv zeta. simpl attrs_create.
  destruct (decide ("VariableNames" ∈ map fst ch)) as [H1|H1].
  { exists "VariableNames". split; [by left|]. split; [done|].
    by rewrite (create_child_taken _ _ _ _ H1). }
  rewrite (new_child "VariableNames"), bind_Ok by done.
  destruct (decide ("VariableDescriptions" ∈ map fst ch)) as [H2|H2].
  { exists "VariableDescriptions". split; [right; by left|]. split; [done|].
    rewrite create_child_taken; [done|]. rewrite map_app, elem_of_app. by left. }
  rewrite (new_child "VariableDescriptions"), bind_Ok by fresh_name.
  destruct (decide ("VariableUnits" ∈ map fst ch)) as [H3|H3].
  { exists "VariableUnits". split; [do 2 right; by left|]. split; [done|].
    rewrite create_child_taken; [done|]. rewrite !map_app, !elem_of_app. by do 2 left. }
  exfalso. unfold reserved_names in Hres.
  rewrite !elem_of_cons, elem_of_nil in Hres.
  destruct Hres as [->|[->|[->|[]]]]; done.
Qed.

Lemma write_df_metadata_Ok_inv n df n' :
  write_df_metadata n df = Ok n' →
  ∃ a ch, n = Group a ch ∧ (∀ k, k ∈ reserved_names → k ∉ map fst ch) ∧
          n' = Group (<["matlab_type" := AttrBytes "table"]> a)
                 (ch ++ metadata_children df).
Proof.
  destruct n as [a dt d|a ch]; [by rewrite write_df_metadata_Dataset|].
  intros Hw. exists a, ch.
  assert (Hfresh : ∀ k, k ∈ reserved_names → k ∉ map fst ch).
  { intros k Hk Hin.
    destruct (write_df_metadata_taken a ch df) as (k' & _ & _ & Hr); [by exists k|].
    congruence. }
  split; [done|]. split; [done|].
  rewrite (write_df_metadata_fresh _ _ _ Hfresh) in Hw. by injection Hw as <-.
Qed.

Lemma write_df_column_Ok_inv n col n' :
  write_df_column n col = Ok n' →
  ∃ a ch c, n = Group a ch ∧ (name col ∉ map fst ch) ∧
            n' = Group a (ch ++ [(name col, c)]) ∧ written_column col c.
Proof.
  unfold write_df_column, write_df_column_with. intros Hw.
  apply bind_Ok_inv in Hw as (tag & Htag & Hw).
  destruct (String.eqb_spec tag "table") as [->|Hne].
  - apply new_child_Ok_inv in Hw as (a & ch & c & -> & Hfresh & Hbody & ->).
    exists a, ch, c. repeat split; try done. exists "table". split; [done|].
    apply bind_Ok_inv in Hbody as (st & _ & Hmeta).
    apply write_df_metadata_Ok_inv in Hmeta as (a2 & ch2 & _ & _ & ->).
    split; [simpl; apply lookup_insert_eq | done].
  - unfold create_dataset in Hw.
    destruct (has_hdf5_type (dtype_ col) (values col)); [|done].
    apply new_child_Ok_inv in Hw as (a & ch & c & -> & Hfresh & [= <-] & ->).
    exists a, ch. eexists. repeat split; try done. exists tag.
    split; [done|]. split; [simpl; apply lookup_insert_eq | done].
Qed.

Lemma for_each_write_df_column_Ok_inv cols a ch n' :
  for_each write_df_column cols (Group a ch) = Ok n' →
  ∃ cs, n' = Group a (ch ++ cs) ∧ map fst cs = map name cols ∧
        Forall2 (λ col c, written_column col c.2) cols cs ∧
        NoDup (map name cols) ∧ (∀ k, k ∈ map name cols → k ∉ map fst ch).
Proof.
  revert ch. induction cols as [|col cols IH]; intros ch Hw.
  - injection Hw as <-. exists []. rewrite app_nil_r.
    split; [done|]. split; [done|]. split; [constructor|]. split; [apply NoDup_nil_2|].
    intros k Hk. by apply elem_of_nil in Hk.
  - cbn [for_each] in Hw. apply bind_Ok_inv in Hw as (n1 & H1 & Hw).
    apply write_df_column_Ok_inv in H1 as (a1 & ch1 & c & [= <- <-] & Hfresh & -> & Hc).
    apply IH in Hw as (cs & -> & Hnames & Hcs & Hnd & Hfr).
    exists ((name col, c) :: cs). rewrite <-app_assoc. cbn [map fst].
    split; [done|]. split; [by rewrite Hnames|]. split; [by constructor|].
    assert (Hcol : name col ∉ map name cols).
    { intros Hin. apply (Hfr _ Hin). rewrite map_app, elem_of_app. right. by left. }
    split; [by constructor|].
    intros k [->|Hk]%elem_of_cons; [done|].
    intros Hin. apply (Hfr _ Hk). rewrite map_app, elem_of_app. by left.
Qed.



(** X4: [write_df] does not write over a table: a destination in which one
    of the metadata names is taken is refused with the [ValueError] of
    that name, and so is every group that [write_df] has written to. *)
Theorem write_df_never_overwrites (a : gmap string attr) (ch : list (string * node))
    (df : DataFrame) :
  ((∃ k, k ∈ reserved_names ∧ k ∈ map fst ch) →
   ∃ k, k ∈ reserved_names ∧ k ∈ map fst ch ∧
        write_df (Group a ch) df = Raise (ValueError "name already exists" k)) ∧
  (∀ n df0, write_df n df0 = Ok (Group a ch) →
     write_df (Group a ch) df =
       Raise (ValueError "name already exists" "VariableNames")).
Proof.
  split.
  - intros Htaken.
    destruct (write_df_metadata_taken a ch df Htaken) as (k & Hk & Hin & Hr).
    exists k. split; [done|]. split; [done|]. by rewrite write_df_eq, Hr.
  - intros n df0 Hw. rewrite write_df_eq in Hw.
    apply bind_Ok_inv in Hw as (n1 & Hmeta & Hw).
    apply write_df_metadata_Ok_inv in Hmeta as (a0 & ch0 & -> & _ & ->).
    apply for_each_write_df_column_Ok_inv in Hw as (cs & Heq & _).
    injection Heq as -> ->.
    rewrite write_df_eq, write_df_metadata_eq. cbv zeta. simpl attrs_create.
    rewrite create_child_taken; [done|].
    rewrite !map_app, !elem_of_app. left. right. by left.
Qed.

Lemma write_df_never_overwrites_witness :
  ∃ k, k ∈ reserved_names ∧
       write_df var1_node example_table = Raise (ValueError "name already exists" k).
Proof.
  destruct (proj1 (write_df_never_overwrites
                     {["matlab_type" := AttrBytes "table"]}
                     [("VariableNames", Dataset ∅ object_ [SBytes "Var1"]);
                      ("VariableDescriptions", Dataset ∅ (bytes_ 5) [SBytes "level"]);
                      ("VariableUnits", Dataset ∅ (bytes_ 1) [SBytes "m"]);
                      ("Var1", Dataset {["matlab_type" := AttrBytes "int64"]} int64
                                 [SInt 1; SInt 2])]
                     example_table))
    as (k & Hk & _ & Hr).
  - exists "VariableNames". split; apply (bool_decide_unpack _); reflexivity.
  - exists k. split; [exact Hk | exact Hr].
Defined.

(** ** Table Decoder: what it looks at *)

Lemma assoc_Permutation {A} k (l l' : list (string * A)) :
  NoDup (map fst l) → Permutation l l' → assoc k l = assoc k l'.
Proof.
  intros Hnd Hp. induction Hp as [|[k1 x1] l l' Hp IH|[k1 x1] [k2 x2] l|l l' l'' Hp1 IH1 Hp2 IH2].
  - done.
  - rewrite !assoc_cons. destruct (String.eqb k k1); [done|].
    apply IH. simpl in Hnd. by apply NoDup_cons in Hnd as [_ ?].
  - rewrite !assoc_cons. simpl in Hnd.
    apply NoDup_cons in Hnd as [Hne _]. apply not_elem_of_cons in Hne as [Hne _].
    destruct (String.eqb_spec k k1) as [Hk1|_], (String.eqb_spec k k2) as [Hk2|_];
      congruence.
  - rewrite IH1 by done. apply IH2.
    assert (Hpm : map fst l ≡ₚ map fst l') by (by apply Permutation_map).
    by rewrite <-Hpm.
Qed.

Section DecoderReads.
Context {BI : Builtins}.

Lemma find_nrows_ext g g' all colnames :
  (∀ k, getitem g k = getitem g' k) →
  find_nrows g all colnames = find_nrows g' all colnames.
Proof.
  intros Hg. induction colnames as [|c colnames IH]; simpl; [done|].
  destruct (key_of c) as [k|e]; simpl; [|done].
  rewrite Hg. destruct (getitem g' k) as [[? ? ?|? ?]|?]; simpl; done.
Qed.

(** The decoder sees a table node through the children it asks for by
    name and through nothing else. *)
Lemma parse_bronhdf_ext g g' :
  (∀ k, getitem g k = getitem g' k) → parse_bronhdf g = parse_bronhdf g'.
Proof.
  intros Hg. rewrite !parse_bronhdf_eq, Hg.
  destruct (getitem g' "VariableNames") as [dataset|e]; simpl; [|done].
  destruct (read_all dataset) as [[dt colnames]|e]; simpl; [|done].
  destruct (is_empty_marker colnames); [done|].
  assert (Hm : ∀ m n, read_metadata g m n = read_metadata g' m n)
    by (intros; unfold read_metadata; by rewrite Hg).
  rewrite !Hm, (find_nrows_ext g g') by done.
  destruct (read_metadata g' "VariableDescriptions" _) as [vd|e]; simpl; [|done].
  destruct (read_metadata g' "VariableUnits" _) as [vu|e]; simpl; [|done].
  destruct (find_nrows g' colnames colnames) as [nrows|e]; simpl; [|done].
  rewrite (for_each_ext _
             (λ df colname, col ← read_column g' nrows colname; setitem df col));
    [done|].
  intros df c. rewrite !read_column_eq.
  destruct (key_of c) as [k|e]; simpl; [|done]. by rewrite Hg.
Qed.
End DecoderReads.

(** X5: The decoder never reads the attributes of the table node itself, its
    ["table"] tag among them, and it does not depend on the order in
    which the node lists its children. *)
Theorem decoder_reads_children_by_name {BI : Builtins} (a a' : gmap string attr)
    (ch ch' : list (string * node)) :
  parse_bronhdf (Group a ch) = parse_bronhdf (Group a' ch) ∧
  (NoDup (map fst ch) → Permutation ch ch' →
   parse_bronhdf (Group a ch) = parse_bronhdf (Group a' ch')).
Proof.
  split.
  - apply parse_bronhdf_ext. intros k. by rewrite !getitem_Group.
  - intros Hnd Hp. apply parse_bronhdf_ext. intros k.
    by rewrite !getitem_Group, (assoc_Permutation k ch ch').
Qed.

Lemma decoder_reads_children_by_name_witness :
  parse_bronhdf (BI := ascii_builtins)
    (Group ∅
       [("VariableDescriptions", Dataset ∅ (bytes_ 1) []);
        ("VariableUnits", Dataset ∅ (bytes_ 1) []);
        ("tube", Dataset {["matlab_type" := AttrBytes "int64"]} int64 [SInt 1; SInt 2]);
        ("VariableNames", Dataset ∅ object_ [SBytes "tube"])]) =
  Ok (mkDataFrame [mkSeries "tube" int64 [VScalar (SInt 1); VScalar (SInt 2)]]
        (Some [""]) (Some [""])).
Proof.
  rewrite <-(proj2 (decoder_reads_children_by_name (BI := ascii_builtins)
               {["matlab_type" := AttrBytes "table"]} ∅
               [("VariableNames", Dataset ∅ object_ [SBytes "tube"]);
                ("VariableDescriptions", Dataset ∅ (bytes_ 1) []);
                ("VariableUnits", Dataset ∅ (bytes_ 1) []);
                ("tube", Dataset {["matlab_type" := AttrBytes "int64"]} int64
                           [SInt 1; SInt 2])] _)).
  - vm_compute. reflexivity.
  - apply (bool_decide_unpack _). reflexivity.
  - apply (Permutation_cons_append
        [("VariableDescriptions", Dataset ∅ (bytes_ 1) []);
         ("VariableUnits", Dataset ∅ (bytes_ 1) []);
         ("tube", Dataset {["matlab_type" := AttrBytes "int64"]} int64
                    [SInt 1; SInt 2])]).
Defined.

(** ** Aggregate Codec: writing and reading back *)

Lemma create_child_attrs k c n n' :
  create_child k c n = Ok n' → attrs_of n' = attrs_of n.
Proof.
  destruct n as [a dt d|a ch]; simpl; [done|].
  case_bool_decide; [done|]. by intros [= <-].
Qed.

Lemma on_child_attrs k body n n' :
  on_child k body n = Ok n' → attrs_of n' = attrs_of n.
Proof.
  destruct n as [a dt d|a ch]; simpl; [done|].
  destruct (on_child_list k body ch); simpl; [|done]. by intros [= <-].
Qed.

Lemma for_each_attrs {A} (body : node → A → result node) l n n' :
  (∀ n x n', body n x = Ok n' → attrs_of n' = attrs_of n) →
  for_each body l n = Ok n' → attrs_of n' = attrs_of n.
Proof.
  intros Hb. revert n. induction l as [|x l IH]; intros n; simpl.
  - by intros [= <-].
  - intros Hr. apply bind_Ok_inv in Hr as (n1 & H1 & Hr).
    rewrite (IH _ Hr). by eapply Hb.
Qed.

(** X6: Whatever [write_gmws_to_bron2] has written carries the version
    (2, 0), in place of any version the root carried before, and passes
    the version gate of the reader. *)
Theorem written_file_passes_gate (hdfgroup : node) (gmws : list (string * GMW))
    (hdfgroup' : node) :
  write_gmws_to_bron2 hdfgroup gmws = Ok hdfgroup' →
  attrs_of hdfgroup' = <["BRON_VERSION" := AttrInts [2; 0]%Z]> (attrs_of hdfgroup) ∧
  _check_bron_version hdfgroup' = Ok ().
Proof.
  unfold write_gmws_to_bron2. intros Hw.
  apply for_each_attrs in Hw.
  2:{ intros n [k gmw] n' Hb. apply bind_Ok_inv in Hb as (n1 & H1 & Hb).
      apply on_child_attrs in Hb. apply create_child_attrs in H1. congruence. }
  assert (Ha : attrs_of hdfgroup' =
               <["BRON_VERSION" := AttrInts [2; 0]%Z]> (attrs_of hdfgroup)).
  { rewrite Hw. by destruct hdfgroup. }
  split; [done|].
  unfold _check_bron_version, attrs_getitem. rewrite Ha, lookup_insert_eq.
  by rewrite bool_decide_true by eauto.
Qed.

Lemma written_file_passes_gate_witness :
  ∃ g, write_gmws_to_bron2 (Group {["BRON_VERSION" := AttrInts [1; 3]%Z]} [])
         [("1", mkGMW example_table example_table example_table)] = Ok g ∧
       _check_bron_version g = Ok ().
Proof.
  destruct (write_gmws_to_bron2 (Group {["BRON_VERSION" := AttrInts [1; 3]%Z]} [])
              [("1", mkGMW example_table example_table example_table)])
    as [g|e] eqn:Hw; [|vm_compute in Hw; discriminate Hw].
  exists g. split; [reflexivity|].
  by destruct (written_file_passes_gate _ _ _ Hw).
Defined.

Lemma wf_gmw_inv gmw :
  wf_gmw gmw = true →
  wf_table (History gmw) = true ∧ wf_table (Tube gmw) = true ∧
  wf_table (Well gmw) = true.
Proof. unfold wf_gmw. rewrite !andb_true_iff. tauto. Qed.

Lemma GMW_write_layout gmw a ch :
  wf_gmw gmw = true →
  (∀ k, k ∈ FIELDS → k ∉ map fst ch) →
  GMW_write gmw (Group a ch) = Ok (Group a (ch ++ gmw_children gmw)).
Proof.
  intros (Hh & Ht & Hw)%wf_gmw_inv Hfresh.
  assert (H1 : "History" ∉ map fst ch) by (apply Hfresh; by left).
  assert (H2 : "Tube" ∉ map fst ch) by (apply Hfresh; right; by left).
  assert (H3 : "Well" ∉ map fst ch) by (apply Hfresh; do 2 right; by left).
  unfold GMW_write, FIELDS, create_group. cbn [for_each].
  rewrite (new_child_last "History") by done.
  change (GMW_getattr gmw "History") with (Ok (History gmw)).
  rewrite bind_Ok, (write_df_layout _ Hh ∅), !bind_Ok.
  rewrite (new_child_last "Tube") by fresh_name.
  change (GMW_getattr gmw "Tube") with (Ok (Tube gmw)).
  rewrite bind_Ok, (write_df_layout _ Ht ∅), !bind_Ok.
  rewrite (new_child_last "Well") by fresh_name.
  change (GMW_getattr gmw "Well") with (Ok (Well gmw)).
  rewrite bind_Ok, (write_df_layout _ Hw ∅), !bind_Ok.
  by rewrite <-!app_assoc.
Qed.

Section AggregateRoundTrip.
Context {BI : Builtins}.

Lemma read_gmw_layout gmw a :
  wf_gmw gmw = true →
  read_gmw (Group a (gmw_children gmw)) = Ok (GMW_with_defaults gmw).
Proof.
  intros (Hh & Ht & Hw)%wf_gmw_inv. unfold read_gmw.
  rewrite !getitem_with_bind, !getitem_Group.
  change (assoc "History" (gmw_children gmw))
    with (Some (table_node table_children (History gmw))).
  change (assoc "Tube" (gmw_children gmw))
    with (Some (table_node table_children (Tube gmw))).
  change (assoc "Well" (gmw_children gmw))
    with (Some (table_node table_children (Well gmw))).
  unfold table_node.
  by rewrite !bind_Ok, (parse_layout _ Hh), bind_Ok, (parse_layout _ Ht), bind_Ok,
    (parse_layout _ Hw).
Qed.
End AggregateRoundTrip.

(** X7: A [GMW] of well-formed tables is written into an empty group as the
    three children [History], [Tube], [Well], in that order, and is read
    back as the [GMW] of the three tables as the table decoder returns
    them. *)
Theorem GMW_roundtrip {BI : Builtins} (gmw : GMW) (a : gmap string attr) :
  wf_gmw gmw = true →
  ∃ g, GMW_write gmw (Group a []) = Ok g ∧
       keys g = FIELDS ∧
       read_gmw g = Ok (GMW_with_defaults gmw).
Proof.
  intros Hwf. eexists. split.
  - apply GMW_write_layout; [done|]. intros; apply not_elem_of_nil.
  - split; [done|]. by apply read_gmw_layout.
Qed.

Lemma GMW_roundtrip_witness :
  ∃ g, GMW_write (mkGMW example_table example_table example_table) (Group ∅ []) = Ok g ∧
       keys g = ["History"; "Tube"; "Well"] ∧
       read_gmw (BI := ascii_builtins) g =
         Ok (mkGMW (with_defaults example_table) (with_defaults example_table)
                   (with_defaults example_table)).
Proof.
  assert (Hwf : wf_gmw (mkGMW example_table example_table example_table) = true)
    by (vm_compute; reflexivity).
  destruct (GMW_roundtrip (BI := ascii_builtins) _ ∅ Hwf) as (g & Hw & Hk & Hr).
  exists g. split; [exact Hw|]. split; [exact Hk | exact Hr].
Defined.

Lemma assoc_map_snd {A B} (f : A → B) (l : list (string * A)) k x :
  NoDup (map fst l) → (k, x) ∈ l →
  assoc k (map (λ kv, (kv.1, f kv.2)) l) = Some (f x).
Proof.
  induction l as [|[k' x'] l IH]; intros Hnd Hin.
  - by apply elem_of_nil in Hin.
  - rewrite map_cons in Hnd. apply NoDup_cons in Hnd as [Hk Hnd].
    rewrite map_cons, assoc_cons. simpl fst; simpl snd.
    apply elem_of_cons in Hin as [[= -> ->]|Hin]; [by rewrite String.eqb_refl|].
    destruct (String.eqb_spec k k') as [->|_]; [|by apply IH].
    exfalso. apply Hk. by apply (list_elem_of_fmap_2 fst _ (k', x)).
Qed.

Lemma assoc_pairs_unique {A} (l : list (string * A)) k x y :
  NoDup (map fst l) → (k, x) ∈ l → (k, y) ∈ l → x = y.
Proof.
  intros Hnd Hx Hy.
  pose proof (assoc_map_snd (λ z, z) l k x Hnd Hx) as H1.
  pose proof (assoc_map_snd (λ z, z) l k y Hnd Hy) as H2.
  simpl in *. congruence.
Qed.

Lemma write_gmws_layout gmws a ch :
  NoDup (map fst gmws) →
  (∀ k, k ∈ map fst gmws → k ∉ map fst ch) →
  Forall (λ kv, wf_gmw kv.2 = true) gmws →
  for_each
    (λ hdfgroup '(group, gmw),
       hdfgroup ← create_group group hdfgroup;
       on_child group (λ g, GMW_write gmw g) hdfgroup)
    gmws (Group a ch) =
  Ok (Group a (ch ++ map (λ kv, (kv.1, Group ∅ (gmw_children kv.2))) gmws)).
Proof.
  revert ch. induction gmws as [|[k gmw] gmws IH]; intros ch Hnd Hfresh Hwf.
  - simpl. by rewrite app_nil_r.
  - rewrite map_cons in Hnd. apply NoDup_cons in Hnd as [Hk Hnd].
    apply Forall_cons in Hwf as [Hgmw Hwf]. cbn [for_each]. unfold create_group.
    rewrite (new_child_last k) by (apply Hfresh; left).
    rewrite (GMW_write_layout gmw ∅ []) by (done || intros; apply not_elem_of_nil).
    rewrite !bind_Ok, IH; [by rewrite <-app_assoc | done | | done].
    intros k' Hk'. rewrite map_app, not_elem_of_app. split.
    + apply Hfresh. by right.
    + simpl. rewrite not_elem_of_cons. split; [|apply not_elem_of_nil].
      intros ->. done.
Qed.

Lemma for_each_dict_setitem_Ok {V} (F : string → result V) ks d0 :
  (∀ k, k ∈ ks → ∃ v, F k = Ok v) →
  ∃ d, for_each (λ gmws k, gmw ← F k; Ok (dict_setitem k gmw gmws)) ks d0 = Ok d.
Proof.
  revert d0. induction ks as [|k ks IH]; intros d0 HF; simpl; [eauto|].
  destruct (HF k) as [v ->]; [left|]. simpl. apply IH.
  intros k' Hk'. apply HF. by right.
Qed.

Lemma sorted_gkeys_Permutation {BI : Builtins} (hdfgroup : node) :
  Permutation (sorted_gkeys hdfgroup) (keys hdfgroup).
Proof.
  unfold sorted_gkeys.
  destruct (sorted_key_int (keys hdfgroup)) as [ks|] eqn:Hks;
    [|apply sorted_Permutation].
  unfold sorted_key_int in Hks.
  destruct (mapM _ (keys hdfgroup)) as [keyed|] eqn:Hkeyed; simpl in Hks; [|done].
  injection Hks as <-.
  assert (Hsnd : map snd keyed = keys hdfgroup).
  { apply mapM_Some_1 in Hkeyed. clear -Hkeyed.
    induction Hkeyed as [|k p l keyed Hp _ IH]; simpl; [done|].
    destruct (int_ k); simpl in Hp; [|done]. injection Hp as <-. by rewrite IH. }
  rewrite <-Hsnd. apply Permutation_map, sorted_Permutation.
Qed.

(** X8: A collection with distinct keys, each the name of one child,
    whose tables are well-formed is written into an empty root without
    error; reading the file back succeeds, lists the keys in the order
    of the reader, and holds under each key the [GMW] that was written
    under it, with its three tables as the table decoder returns
    them. *)
Theorem gmws_roundtrip {BI : Builtins} (gmws : list (string * GMW))
    (a : gmap string attr) :
  NoDup (map fst gmws) →
  Forall (λ kv, valid_name kv.1 = true) gmws →
  Forall (λ kv, wf_gmw kv.2 = true) gmws →
  ∃ g r,
    write_gmws_to_bron2 (Group a []) gmws = Ok g ∧
    read_bron2_to_gmws g = Ok r ∧
    map fst r = sorted_gkeys g ∧
    Permutation (map fst r) (map fst gmws) ∧
    ∀ k v, (k, v) ∈ r ↔ ∃ gmw, (k, gmw) ∈ gmws ∧ v = GMW_with_defaults gmw.
Proof.
  intros Hnd _ Hwf.
  set (g := Group (<["BRON_VERSION" := AttrInts [2; 0]%Z]> a)
              (map (λ kv, (kv.1, Group ∅ (gmw_children kv.2))) gmws)).
  assert (Hw : write_gmws_to_bron2 (Group a []) gmws = Ok g).
  { unfold write_gmws_to_bron2. simpl attrs_create.
    rewrite write_gmws_layout; [done | done | | done].
    intros; apply not_elem_of_nil. }
  assert (Hkeys : Permutation (keys g) (map fst gmws)).
  { unfold g. cbn [keys]. rewrite sorted_Permutation, map_map. reflexivity. }
  assert (Hperm : Permutation (sorted_gkeys g) (map fst gmws)).
  { rewrite <-Hkeys. apply sorted_gkeys_Permutation. }
  assert (Hread1 : ∀ k gmw, (k, gmw) ∈ gmws →
            getitem_with g k read_gmw = Ok (GMW_with_defaults gmw)).
  { intros k gmw Hin. rewrite getitem_with_bind. unfold g. rewrite getitem_Group.
    rewrite (assoc_map_snd (λ gmw, Group ∅ (gmw_children gmw)) gmws k gmw) by done.
    rewrite bind_Ok. apply read_gmw_layout.
    rewrite Forall_forall in Hwf. by apply (Hwf (k, gmw)). }
  destruct (for_each_dict_setitem_Ok (λ k, getitem_with g k read_gmw)
              (sorted_gkeys g) []) as [r Hr].
  { intros k Hk. rewrite Hperm in Hk.
    apply list_elem_of_fmap in Hk as ([k' gmw] & Heq & Hin).
    simpl in Heq. subst k. eauto. }
  assert (Hread : read_bron2_to_gmws g = Ok r).
  { unfold read_bron2_to_gmws.
    assert (Hgate : _check_bron_version g = Ok ()).
    { unfold _check_bron_version, attrs_getitem. simpl attrs_of.
      rewrite lookup_insert_eq. by rewrite bool_decide_true by eauto. }
    by rewrite Hgate, bind_Ok. }
  apply for_each_dict_setitem in Hr as [Hfst Hin].
  2:{ by rewrite Hperm. }
  2:{ intros; apply not_elem_of_nil. }
  simpl in Hfst.
  assert (Hfwd : ∀ k v, (k, v) ∈ r → ∃ gmw, (k, gmw) ∈ gmws ∧ v = GMW_with_defaults gmw).
  { intros k v Hkv. apply Hin in Hkv as [Hkv|[Hk Hv]]; [by apply elem_of_nil in Hkv|].
    rewrite Hperm in Hk. apply list_elem_of_fmap in Hk as ([k' gmw] & Heq & Hgmw).
    simpl in Heq. subst k. exists gmw. split; [done|]. rewrite (Hread1 _ _ Hgmw) in Hv. by injection Hv. }
  exists g, r. split; [done|]. split; [done|]. split; [done|].
  split; [by rewrite Hfst|].
  intros k v. split; [apply Hfwd|].
  intros (gmw & Hgmw & ->).
  assert (Hk : k ∈ map fst r).
  { rewrite Hfst, Hperm. by apply (list_elem_of_fmap_2 fst _ (k, gmw)). }
  apply list_elem_of_fmap in Hk as ([k' v] & Heq & Hkv). simpl in Heq. subst k.
  destruct (Hfwd _ _ Hkv) as (gmw' & Hgmw' & ->).
  by rewrite (assoc_pairs_unique gmws k' gmw gmw' Hnd Hgmw Hgmw').
Qed.

Lemma gmws_roundtrip_witness :
  let G := mkGMW example_table example_table example_table in
  ∃ g r, write_gmws_to_bron2 (Group ∅ []) [("10", G); ("2", G); ("1", G)] = Ok g ∧
         read_bron2_to_gmws (BI := ascii_builtins) g = Ok r ∧
         map fst r = ["1"; "2"; "10"].
Proof.
  intros G.
  assert (Hnd : NoDup (map fst [("10", G); ("2", G); ("1", G)]))
    by (apply (bool_decide_unpack _); reflexivity).
  assert (Hwf : Forall (λ kv : string * GMW, wf_gmw kv.2 = true)
                  [("10", G); ("2", G); ("1", G)])
    by (repeat constructor; vm_compute; reflexivity).
  assert (Hnames : Forall (λ kv : string * GMW, valid_name kv.1 = true)
                     [("10", G); ("2", G); ("1", G)])
    by (repeat constructor).
  destruct (gmws_roundtrip (BI := ascii_builtins) _ ∅ Hnd Hnames Hwf)
    as (g & r & Hw & Hr & Hfst & _).
  exists g, r. split; [exact Hw|]. split; [exact Hr|].
  rewrite Hfst. vm_compute in Hw. injection Hw as <-. vm_compute. reflexivity.
Defined.

(** ** What comes back can be written again *)

Lemma existsb_isinstance_with_defaults vs :
  existsb isinstance_DataFrame (map (with_defaults_value with_defaults) vs) =
  existsb isinstance_DataFrame vs.
Proof. induction vs as [|[x|x| |t] vs IH]; simpl; try done; exact IH. Qed.

Lemma default_metadata_not_nil ncols m : ncols ≠ 0 → default_metadata ncols m ≠ [].
Proof. intros Hn. destruct m as [[|x l]|]; simpl; try done; by destruct ncols. Qed.

Lemma default_metadata_ok ncols m :
  metadata_ok m = true → metadata_ok (Some (default_metadata ncols m)) = true.
Proof.
  assert (Hempty : forallb text_ok (replicate ncols "") = true).
  { induction ncols as [|n IH]; [done|]. simpl. exact IH. }
  destruct m as [[|x l]|]; simpl; done.
Qed.

Lemma rows_come_back_well_formed vs :
  Forall (on_row comes_back_well_formed) vs →
  forallb (wf_row wf_table) vs = true →
  forallb (wf_row wf_table) (map (with_defaults_value with_defaults) vs) = true ∧
  forallb (λ z, match z with VTable t => metadata_set t | _ => true end)
          (map (with_defaults_value with_defaults) vs) = true.
Proof.
  induction 1 as [|z vs Hz _ IH]; [done|]. cbn [map forallb].
  rewrite !andb_true_iff. intros [Hwf Hall]. destruct (IH Hall) as [IH1 IH2].
  destruct z as [x|x| |t]; try done. cbn [wf_row on_row with_defaults_value] in *.
  destruct (Hz Hwf) as [H1 H2]. by rewrite H1, H2.
Qed.

Lemma scalars_metadata_set vs :
  existsb isinstance_DataFrame vs = false →
  forallb (λ z, match z with VTable t => metadata_set t | _ => true end) vs = true.
Proof. induction vs as [|[x|x| |t] vs IH]; simpl; try done; exact IH. Qed.

Lemma column_comes_back_well_formed nrows col :
  on_rows comes_back_well_formed col →
  wf_column wf_table nrows col = true →
  wf_column wf_table nrows (with_defaults_column with_defaults col) = true ∧
  forallb (λ z, match z with VTable t => metadata_set t | _ => true end)
          (values (with_defaults_column with_defaults col)) = true.
Proof.
  intros Hrows Hwf. pose proof Hwf as Hinv%wf_column_inv.
  destruct Hinv
    as (Hlen & Hres & Hvalid & Hidx & [(Hany & Hobj & Hrws)|(Hany & Hdt & Hholds & Hne)]).
  - destruct (rows_come_back_well_formed _ Hrows Hrws) as [H1 H2].
    split; [|exact H2]. subst nrows.
    unfold wf_column, with_defaults_column. cbn [name dtype_ values index].
    rewrite existsb_isinstance_with_defaults, Hany, length_map, H1, Hvalid.
    rewrite !andb_true_iff, !bool_decide_eq_true. done.
  - unfold with_defaults_column. rewrite (with_defaults_scalars _ _ Hholds).
    split; [by destruct col|]. cbn [values]. by apply scalars_metadata_set.
Qed.

Lemma table_comes_back_well_formed df : comes_back_well_formed df.
Proof.
  induction df as [cols vd vu IH] using DataFrame_nested_ind.
  intros Hwf. pose proof Hwf as (Hnd & Hvar & Hex & Hcols & Hvd & Hvu)%wf_table_inv.
  assert (Hne : length cols ≠ 0) by (by destruct cols).
  assert (Hnames : map name (map (with_defaults_column with_defaults) cols) =
                   map name cols).
  { rewrite map_map. by apply map_ext. }
  assert (Hnrows : nrows_of (map (with_defaults_column with_defaults) cols) =
                   nrows_of cols).
  { destruct cols as [|c cols]; [done|]. simpl. by rewrite length_map. }
  assert (Hall : Forall (λ col,
            wf_column wf_table (nrows_of cols)
              (with_defaults_column with_defaults col) = true ∧
            forallb (λ z, match z with VTable t => metadata_set t | _ => true end)
              (values (with_defaults_column with_defaults col)) = true) cols).
  { rewrite Forall_forall in IH. apply Forall_forall. intros col Hcol.
    apply column_comes_back_well_formed; [by apply IH | by apply Hcols]. }
  cbn [with_defaults wf_table metadata_set]. rewrite Hnames, Hnrows.
  rewrite (default_metadata_ok _ vd Hvd), (default_metadata_ok _ vu Hvu).
  rewrite !andb_true_iff, negb_true_iff, !bool_decide_eq_true, bool_decide_eq_false.
  split; [split; [split; [split; [split; [split|]|]|]|]|split; [split|]]; try done.
  - rewrite <-Hex. clear. induction cols as [|c cols IH]; [done|].
    cbn [map existsb values with_defaults_column].
    by rewrite existsb_isinstance_with_defaults, IH.
  - apply forallb_forall. intros c' Hc'. apply list_elem_of_In in Hc'.
    apply list_elem_of_fmap in Hc' as (col & -> & Hcol).
    rewrite Forall_forall in Hall. by apply Hall.
  - split; [done|]. intros [= Hd]. by apply (default_metadata_not_nil _ vd Hne).
  - split; [done|]. intros [= Hd]. by apply (default_metadata_not_nil _ vu Hne).
  - apply forallb_forall. intros c' Hc'. apply list_elem_of_In in Hc'.
    apply list_elem_of_fmap in Hc' as (col & -> & Hcol).
    rewrite Forall_forall in Hall. by apply Hall.
Qed.

(** X9: A table that was read back from the file of a well-formed table is
    well-formed again, and a second round trip returns it unchanged:
    encoding and decoding is idempotent on well-formed tables. *)
Theorem second_roundtrip_is_identity {BI : Builtins} (df : DataFrame)
    (a a' : gmap string attr) :
  wf_table df = true →
  ∃ g df1 g',
    write_df (Group a []) df = Ok g ∧ parse_bronhdf g = Ok df1 ∧
    wf_table df1 = true ∧
    write_df (Group a' []) df1 = Ok g' ∧ parse_bronhdf g' = Ok df1.
Proof.
  intros Hwf. destruct (table_comes_back_well_formed df Hwf) as [Hwf1 Hset1].
  exists (Group (<["matlab_type" := AttrBytes "table"]> a) (table_children df)),
         (with_defaults df),
         (Group (<["matlab_type" := AttrBytes "table"]> a')
            (table_children (with_defaults df))).
  split; [by apply write_df_layout|]. split; [by apply parse_layout|].
  split; [done|]. split; [by apply write_df_layout|].
  rewrite (parse_layout _ Hwf1). by rewrite with_defaults_id.
Qed.

Lemma second_roundtrip_is_identity_witness :
  ∃ g df1 g',
    write_df (Group ∅ []) example_table = Ok g ∧
    parse_bronhdf (BI := ascii_builtins) g = Ok df1 ∧
    write_df (Group ∅ []) df1 = Ok g' ∧
    parse_bronhdf (BI := ascii_builtins) g' = Ok df1.
Proof.
  assert (Hwf : wf_table example_table = true) by (vm_compute; reflexivity).
  destruct (second_roundtrip_is_identity (BI := ascii_builtins) example_table ∅ ∅ Hwf)
    as (g & df1 & g' & H1 & H2 & _ & H3 & H4).
  exists g, df1, g'. repeat split; assumption.
Defined.

(** ** Table Decoder: the columns it returns, and rows that do not match *)

Section DecodedColumns.
Context {BI : Builtins}.

Lemma setitem_names df col df' :
  setitem df col = Ok df' → map name df' = map name df ++ [name col].
Proof.
  unfold setitem. repeat case_bool_decide; intros Hset; inversion Hset; subst.
  - rewrite map_app, map_map. done.
  - by rewrite map_app.
Qed.

Lemma read_column_Ok_inv hdfgroup nrows colname col :
  read_column hdfgroup nrows colname = Ok col →
  key_of colname = Ok (name col) ∧
  ∃ child tag, getitem hdfgroup (name col) = Ok child ∧
               attrs_getitem child "matlab_type" = Ok tag.
Proof.
  rewrite read_column_eq. intros Hr.
  apply bind_Ok_inv in Hr as (k & Hk & Hr).
  apply bind_Ok_inv in Hr as (child & Hchild & Hr).
  apply bind_Ok_inv in Hr as (tag & Htag & Hr).
  apply bind_Ok_inv in Hr as (other & _ & Hr).
  assert (Hname : name col = k).
  { destruct other.
    - apply bind_Ok_inv in Hr as (data & _ & [= <-]). done.
    - apply bind_Ok_inv in Hr as (ts & _ & [= <-]). done. }
  rewrite Hname. eauto.
Qed.

Lemma read_columns_names hdfgroup nrows colnames acc df :
  for_each (λ df colname, col ← read_column hdfgroup nrows colname; setitem df col)
    colnames acc = Ok df →
  ∃ ks, map name df = map name acc ++ ks ∧
        Forall2 (λ c k, key_of c = Ok k ∧
                   ∃ child tag, getitem hdfgroup k = Ok child ∧
                                attrs_getitem child "matlab_type" = Ok tag)
                colnames ks.
Proof.
  revert acc. induction colnames as [|c colnames IH]; intros acc; simpl.
  - intros [= <-]. exists []. by rewrite app_nil_r.
  - intros Hr. apply bind_Ok_inv in Hr as (acc1 & H1 & Hr).
    apply bind_Ok_inv in H1 as (col & Hcol & Hset).
    apply IH in Hr as (ks & Hnames & Hks).
    apply setitem_names in Hset. apply read_column_Ok_inv in Hcol.
    exists (name col :: ks). split; [|by constructor].
    by rewrite Hnames, Hset, <-app_assoc.
Qed.
End DecodedColumns.

(** X10: Whenever a stored table that is no empty-table marker decodes, the
    columns of the result are the entries of [VariableNames], one column
    per entry and in that order, and each of them is a child of the node
    that carries a [matlab_type] attribute. *)
Theorem decoded_columns_are_the_names {BI : Builtins} (hdfgroup : node) a dt
    (colnames : list scalar) (df : DataFrame) :
  getitem hdfgroup "VariableNames" = Ok (Dataset a dt colnames) →
  is_empty_marker colnames = false →
  parse_bronhdf hdfgroup = Ok df →
  Forall2 (λ c col, key_of c = Ok (name col) ∧
             ∃ child tag, getitem hdfgroup (name col) = Ok child ∧
                          attrs_getitem child "matlab_type" = Ok tag)
          colnames (columns df).
Proof.
  intros Hnames Hmarker Hparse.
  rewrite (parse_bronhdf_stored _ _ _ _ Hnames), Hmarker in Hparse.
  apply bind_Ok_inv in Hparse as (vd & _ & Hparse).
  apply bind_Ok_inv in Hparse as (vu & _ & Hparse).
  apply bind_Ok_inv in Hparse as (nrows & _ & Hparse).
  apply bind_Ok_inv in Hparse as (cols & Hcols & [= <-]).
  apply read_columns_names in Hcols as (ks & Hks & Hall). simpl in *. subst ks.
  by apply Forall2_fmap_r in Hall.
Qed.

Lemma decoded_columns_are_the_names_witness :
  ∃ df, parse_bronhdf (BI := ascii_builtins) example_node = Ok df ∧
        Forall2 (λ c col, key_of (BI := ascii_builtins) c = Ok (name col) ∧
                   ∃ child tag, getitem example_node (name col) = Ok child ∧
                                attrs_getitem child "matlab_type" = Ok tag)
                [SBytes "filters"; SBytes "tube"] (columns df).
Proof.
  destruct (parse_bronhdf (BI := ascii_builtins) example_node) as [df|e] eqn:Hparse;
    [|vm_compute in Hparse; discriminate Hparse].
  exists df. split; [reflexivity|].
  apply (decoded_columns_are_the_names (BI := ascii_builtins) example_node ∅ object_
           [SBytes "filters"; SBytes "tube"] df); [reflexivity | reflexivity | exact Hparse].
Defined.

Lemma comprehension_first_Raise {A B} (f : A → result B) l1 x l2 e :
  (∀ y, y ∈ l1 → ∃ b, f y = Ok b) → f x = Raise e →
  comprehension f (l1 ++ x :: l2) = Raise e.
Proof.
  intros Hl1 Hx. induction l1 as [|y l1 IH]; simpl.
  - by rewrite Hx.
  - destruct (Hl1 y) as [b ->]; [left|]. rewrite bind_Ok, IH; [done|].
    intros y' Hy'. apply Hl1. by right.
Qed.

(** X11: The decoder reads as many rows of a nested column as the row count
    says: rows stored beyond it are dropped without an error, and when a
    row is missing the decoder raises the [KeyError] of the first
    [Element<i>] that is not there. *)
Theorem nested_rows_follow_row_count {BI : Builtins} :
  (∀ a (es extra : list node) rest,
     read_elements parse_bronhdf
       (Group a (element_children 1 (es ++ extra) ++ rest)) (length es) =
     comprehension parse_bronhdf es) ∧
  (∀ (col_group : node) (nrows i : nat),
     (1 ≤ i ≤ nrows)%nat →
     (∀ j : nat, (1 ≤ j < i)%nat →
        ∃ e t, getitem col_group ("Element" +:+ pretty j) = Ok e ∧
               parse_bronhdf e = Ok t) →
     getitem col_group ("Element" +:+ pretty i) =
       Raise (KeyError ("Element" +:+ pretty i)) →
     read_elements parse_bronhdf col_group nrows =
       Raise (KeyError ("Element" +:+ pretty i))).
Proof.
  split.
  - intros a es extra rest. rewrite read_elements_eq.
    apply comprehension_seq_lookup. intros j e Hj.
    rewrite getitem_Group, assoc_app, element_children_lookup.
    by rewrite (lookup_app_l_Some _ _ _ _ Hj).
  - intros col_group nrows i Hi Hbefore Hmissing. rewrite read_elements_eq.
    replace nrows with ((i - 1) + S (nrows - i)) by lia.
    rewrite seq_app. cbn [seq]. replace (1 + (i - 1)) with i by lia.
    apply comprehension_first_Raise.
    + intros j Hj. apply elem_of_seq in Hj.
      destruct (Hbefore j) as (e & t & -> & Ht); [lia|]. rewrite bind_Ok. eauto.
    + by rewrite Hmissing.
Qed.

Lemma nested_rows_follow_row_count_witness :
  read_elements (parse_bronhdf (BI := ascii_builtins))
    (Group ∅ [("Element1", example_filter_node 5)]) 2 =
  Raise (KeyError "Element2").
Proof.
  apply (proj2 (nested_rows_follow_row_count (BI := ascii_builtins))
           (Group ∅ [("Element1", example_filter_node 5)]) 2 2).
  - lia.
  - intros j Hj. assert (j = 1) as -> by lia.
    exists (example_filter_node 5), (with_defaults (example_filter 5)).
    split; [reflexivity | vm_compute; reflexivity].
  - reflexivity.
Defined.
